(** * eloquent.connections.connection: the Connection class

    A shallow embedding of [src/eloquent/connections/connection.py] and the
    properties of its transaction bookkeeping, read routing, execution
    pipeline, reconnection and pretend mode.

    Python objects become records, methods become computations in a small
    state-and-exception monad, and everything outside the [Connection]
    object (the dbapi driver, the reconnector callable, the wall clock) is
    an interface the development is parametric in. *)

From Stdlib Require Import ZArith List String Bool Lia.
Import ListNotations.

Local Open Scope string_scope.
Local Open Scope list_scope.
Local Open Scope Z_scope.

(** ** Values, bindings and exceptions *)

(** dbapi connections and cursors are opaque objects; only their identity
    matters to the connection class. *)
Definition Handle := nat.
Definition Cursor := nat.

Definition Query := string.

Inductive Value :=
| VNone
| VBool (b : bool)
| VInt (n : Z)
| VStr (s : string).

Definition Row := list Value.

(** The [bindings] argument: [None], a dict ([{}] in [select_one]) or a
    sequence. *)
Inductive Bindings :=
| BNone
| BDict (items : list (string * Value))
| BList (items : list Value).

(** Instances of [Exception].  [QueryException(sql, bindings, previous)] is
    the one class the pipeline distinguishes; every other class is carried
    by name.  What [except Exception] lets through ([KeyboardInterrupt],
    [SystemExit]) is not modelled. *)
Inductive Exn :=
| Error (cls : string) (msg : string)
| QueryException (sql : Query) (bindings : Bindings) (previous : Exn).

Definition PyException (msg : string) : Exn := Error "Exception" msg.
Definition RuntimeError (msg : string) : Exn := Error "RuntimeError" msg.
Definition AttributeError (msg : string) : Exn := Error "AttributeError" msg.
Definition IndexError (msg : string) : Exn := Error "IndexError" msg.

(** What [reconnect] raises without a usable reconnector. *)
Definition no_reconnector_available : Exn :=
  PyException "Lost connection and no reconnector available".

(** Modelled from the spec: the [message] attribute of [QueryException]
    (the class lives in [eloquent/exceptions/query.py], outside the sources
    at hand).  The specification has the pipeline inspect "the underlying
    cause's message", so the message of a wrapped error is the message of
    its cause. *)
Fixpoint message (e : Exn) : string :=
  match e with
  | Error _ msg => msg
  | QueryException _ _ previous => message previous
  end.

Definition is_QueryException (e : Exn) : bool :=
  match e with
  | QueryException _ _ _ => true
  | Error _ _ => false
  end.

(** Python's [s in message] on strings. *)
Fixpoint contains (s m : string) : bool :=
  String.prefix s m ||
  match m with
  | EmptyString => false
  | String _ m' => contains s m'
  end.

(** ** The state-and-exception monad *)

Inductive Res (A : Type) :=
| Return (a : A)
| Raise (e : Exn).
Arguments Return {A} a.
Arguments Raise {A} e.

Definition ST (S A : Type) : Type := S -> Res A * S.

Definition ret {S A} (a : A) : ST S A := fun s => (Return a, s).

Definition raise {S A} (e : Exn) : ST S A := fun s => (Raise e, s).

Definition bind {S A B} (m : ST S A) (k : A -> ST S B) : ST S B :=
  fun s =>
    match m s with
    | (Return a, s') => k a s'
    | (Raise e, s') => (Raise e, s')
    end.

(** [try: m except Exception as e: h e] *)
Definition try_except {S A} (m : ST S A) (h : Exn -> ST S A) : ST S A :=
  fun s =>
    match m s with
    | (Return a, s') => (Return a, s')
    | (Raise e, s') => h e s'
    end.

Definition gets {S A} (f : S -> A) : ST S A := fun s => (Return (f s), s).

Definition modify {S} (f : S -> S) : ST S unit := fun s => (Return tt, f s).

Declare Scope st_scope.
Delimit Scope st_scope with st.
Notation "x <- m ;; k" := (bind m (fun x => k))
  (at level 61, m at next level, right associativity) : st_scope.
Notation "m ;; k" := (bind m (fun _ => k))
  (at level 61, right associativity) : st_scope.
Local Open Scope st_scope.

(** ** The connection object and its surroundings *)

Section Connection.

Context {Outside Callable Time : Type}.

(** What [set_reconnector] may store: any object, callable or not. *)
Inductive Obj :=
| NotCallable (v : Value)
| Function (f : Callable).

(** The attributes of a [Connection] that the methods below read or write.
    [None] is Python's [None].  The database name, table prefix,
    configuration and grammar objects take no part in them. *)
Record Connection := mkConnection {
  _connection : option Handle;
  _cursor : option Cursor;
  _read_connection : option Handle;
  _reconnector : option Obj;
  _transactions : Z;
  _pretending : bool;
  _logging_queries : bool
}.

(** [Connection(connection)] as [__init__] leaves it. *)
Definition init (connection : option Handle) : Connection :=
  {| _connection := connection;
     _cursor := None;
     _read_connection := None;
     _reconnector := None;
     _transactions := 0;
     _pretending := false;
     _logging_queries := false |}.

Definition with_connection (c : Connection) (h : option Handle) :=
  mkConnection h (_cursor c) (_read_connection c) (_reconnector c)
    (_transactions c) (_pretending c) (_logging_queries c).
Definition with_cursor (c : Connection) (k : option Cursor) :=
  mkConnection (_connection c) k (_read_connection c) (_reconnector c)
    (_transactions c) (_pretending c) (_logging_queries c).
Definition with_read_connection (c : Connection) (h : option Handle) :=
  mkConnection (_connection c) (_cursor c) h (_reconnector c)
    (_transactions c) (_pretending c) (_logging_queries c).
Definition with_reconnector (c : Connection) (r : option Obj) :=
  mkConnection (_connection c) (_cursor c) (_read_connection c) r
    (_transactions c) (_pretending c) (_logging_queries c).
Definition with_transactions (c : Connection) (n : Z) :=
  mkConnection (_connection c) (_cursor c) (_read_connection c)
    (_reconnector c) n (_pretending c) (_logging_queries c).
Definition with_pretending (c : Connection) (b : bool) :=
  mkConnection (_connection c) (_cursor c) (_read_connection c)
    (_reconnector c) (_transactions c) b (_logging_queries c).
Definition with_logging_queries (c : Connection) (b : bool) :=
  mkConnection (_connection c) (_cursor c) (_read_connection c)
    (_reconnector c) (_transactions c) (_pretending c) b.

(** Everything Python code can reach: the connection object ([self]) and
    the state of the world outside it (driver sessions, clock, ...). *)
Record World := mkWorld {
  self : Connection;
  outside : Outside
}.

(** The calls the specification counts.  The trace is ghost state: methods
    append to it, nothing reads it. *)
Inductive Event :=
| Called_commit
| Called_rollback
| Called_reconnect
| Called_log_query (query : Query) (bindings : Bindings) (time_ : Time)
| Invoked_callback (query : Query) (bindings : Bindings)
| Driver_commit (h : Handle)
| Driver_rollback (h : Handle).

Definition Trace := list Event.

(** Methods of [Connection] run on the world and extend the trace. *)
Definition M (A : Type) : Type := ST (World * Trace) A.

(** Code handed to the connection by its caller (callbacks, the body of a
    [with] block, the reconnector) runs on the world alone. *)
Definition Code (A : Type) : Type := ST World A.

Definition emit (ev : Event) : M unit :=
  fun s => (Return tt, (fst s, snd s ++ [ev])).

Definition lift {A} (m : Code A) : M A :=
  fun s => let (r, w) := m (fst s) in (r, (w, snd s)).

(** A driver call: it sees and changes the outside world only. *)
Definition in_outside {A} (m : ST Outside A) : Code A :=
  fun w => let (r, o) := m (outside w) in (r, mkWorld (self w) o).

Definition lift_outside {A} (m : ST Outside A) : M A := lift (in_outside m).

Definition get_self : M Connection := gets (fun s => self (fst s)).

Definition modify_self (f : Connection -> Connection) : M unit :=
  modify (fun s => (mkWorld (f (self (fst s))) (outside (fst s)), snd s)).

(** The dbapi driver, the callables stored on the connection and the
    clock.  A driver call changes the outside world and may raise; it has
    no reference to the [Connection] object.  A callable is invoked with
    [self] and may do anything to the world. *)
Record Environment := mkEnvironment {
  dbapi_commit : Handle -> ST Outside unit;
  dbapi_rollback : Handle -> ST Outside unit;
  dbapi_cursor : Handle -> ST Outside Cursor;
  cursor_execute : Cursor -> Query -> Bindings -> ST Outside Value;
  cursor_fetchall : Cursor -> ST Outside (list Row);
  call : Callable -> Code Value;
  (** [time.time()] *)
  time_time : Outside -> Time;
  (** [elapsed_ms start now] is [round((now - start) * 1000, 2)], computed
      on floats in the source *)
  elapsed_ms : Time -> Time -> Time
}.

Variable env : Environment.

(** ** Transaction manager *)

Definition begin_transaction : M unit :=
  modify_self (fun c => with_transactions c (_transactions c + 1)).

(** [self._connection.commit()] *)
Definition connection_commit (connection : option Handle) : M unit :=
  match connection with
  | Some h => emit (Driver_commit h) ;; lift_outside (dbapi_commit env h)
  | None =>
      raise (AttributeError "'NoneType' object has no attribute 'commit'")
  end.

(** [self._connection.rollback()] *)
Definition connection_rollback (connection : option Handle) : M unit :=
  match connection with
  | Some h => emit (Driver_rollback h) ;; lift_outside (dbapi_rollback env h)
  | None =>
      raise (AttributeError "'NoneType' object has no attribute 'rollback'")
  end.

Definition commit : M unit :=
  emit Called_commit ;;
  c <- get_self ;;
  (if _transactions c =? 1 then connection_commit (_connection c) else ret tt) ;;
  modify_self (fun c => with_transactions c (_transactions c - 1)).

Definition rollback : M unit :=
  emit Called_rollback ;;
  c <- get_self ;;
  if _transactions c =? 1 then
    modify_self (fun c => with_transactions c 0) ;;
    c <- get_self ;;
    connection_rollback (_connection c)
  else
    modify_self (fun c => with_transactions c (_transactions c - 1)).

Definition transaction_level : M Z := gets (fun s => _transactions (self (fst s))).

(** [with connection.transaction(): work].  The generator runs up to its
    [yield], the body of the [with] block runs, and the generator is
    resumed with the body's exception or, after a normal exit, past the
    first [try]. *)
Definition transaction {A} (work : Code A) : M A :=
  begin_transaction ;;
  a <- try_except (lift work) (fun e => rollback ;; raise e) ;;
  try_except commit (fun e => rollback ;; raise e) ;;
  ret a.

(** ** Connection router *)

Definition get_connection (c : Connection) : option Handle := _connection c.

Definition get_read_connection (c : Connection) : option Handle :=
  if _transactions c >=? 1 then get_connection c
  else
    match _read_connection c with
    | Some h => Some h
    | None => _connection c
    end.

(** The setters return [self]; here the updated object is the state. *)
Definition set_connection (connection : option Handle) : M unit :=
  c <- get_self ;;
  if _transactions c >=? 1 then
    raise (RuntimeError "Can't swap dbapi connectionwhile within transaction.")
  else
    modify_self (fun c => with_connection c connection).

Definition set_read_connection (connection : option Handle) : M unit :=
  modify_self (fun c => with_read_connection c connection).

Definition set_reconnector (reconnector : option Obj) : M unit :=
  modify_self (fun c => with_reconnector c reconnector).

Definition disconnect : M unit :=
  set_connection None ;; set_read_connection None.

(** ** Reconnection controller *)

Definition reconnect : M Value :=
  emit Called_reconnect ;;
  c <- get_self ;;
  match _reconnector c with
  | Some (Function f) => lift (call env f)
  | Some (NotCallable _) | None =>
      raise no_reconnector_available
  end.

Definition is_None {A} (o : option A) : bool :=
  match o with
  | None => true
  | Some _ => false
  end.

Definition _reconnect_if_missing_connection : M unit :=
  c <- get_self ;;
  if is_None (get_connection c) || is_None (get_read_connection c) then
    reconnect ;; ret tt
  else
    ret tt.

(** ** Execution pipeline *)

Definition prepare_bindings (bindings : Bindings) : Bindings :=
  match bindings with
  | BNone => BList []
  | _ => bindings
  end.

(** [callback(self, query, bindings)] *)
Definition Callback (A : Type) : Type := Query -> Bindings -> Code A.

Definition _run_query_callback {A} (query : Query) (bindings : Bindings)
    (callback : Callback A) : M A :=
  try_except
    (emit (Invoked_callback query bindings) ;; lift (callback query bindings))
    (fun e => raise (QueryException query (prepare_bindings bindings) e)).

Definition lost_connection_messages : list string :=
  ["server has gone away"; "no connection to the server"; "Lost Connection"].

(** The loop returns [True] at the first substring found and falls off the
    end (returning [None], which is falsy) otherwise. *)
Definition _caused_by_lost_connection (e : Exn) : bool :=
  let message := message e in
  existsb (fun s => contains s message) lost_connection_messages.

Definition _try_again_if_caused_by_lost_connection {A} (e : Exn)
    (query : Query) (bindings : Bindings) (callback : Callback A) : M A :=
  if _caused_by_lost_connection e then
    reconnect ;; _run_query_callback query bindings callback
  else
    raise e.

Definition now : M Time := gets (fun s => time_time env (outside (fst s))).

Definition _get_elapsed_time (start : Time) : M Time :=
  t <- now ;; ret (elapsed_ms env start t).

Definition log_query (query : Query) (bindings : Bindings) (time_ : Time)
    : M unit :=
  emit (Called_log_query query bindings time_) ;;
  c <- get_self ;;
  if negb (_logging_queries c) then ret tt else ret tt.

Definition _run {A} (query : Query) (bindings : Bindings)
    (callback : Callback A) : M A :=
  _reconnect_if_missing_connection ;;
  start <- now ;;
  result <-
    try_except (_run_query_callback query bindings callback)
      (fun e =>
         if is_QueryException e then
           _try_again_if_caused_by_lost_connection e query bindings callback
         else raise e) ;;
  t <- _get_elapsed_time start ;;
  log_query query bindings t ;;
  ret result.

(** ** Read queries *)

(** [connection.cursor()] *)
Definition connection_cursor (connection : option Handle) : Code Cursor :=
  match connection with
  | Some h => in_outside (dbapi_cursor env h)
  | None =>
      raise (AttributeError "'NoneType' object has no attribute 'cursor'")
  end.

Definition _get_cursor_for_select (use_read_connection : bool) : Code Cursor :=
  c <- gets self ;;
  cursor <-
    connection_cursor
      (if use_read_connection then get_read_connection c
       else get_connection c) ;;
  modify (fun w => mkWorld (with_cursor (self w) (Some cursor)) (outside w)) ;;
  ret cursor.

Definition select (query : Query) (bindings : Bindings)
    (use_read_connection : bool) : M (list Row) :=
  let callback : Callback (list Row) :=
    fun query_ bindings_ =>
      me <- gets self ;;
      if _pretending me then ret []
      else
        let bindings_ := prepare_bindings bindings_ in
        cursor <- _get_cursor_for_select use_read_connection ;;
        in_outside (cursor_execute env cursor query_ bindings_) ;;
        in_outside (cursor_fetchall env cursor)
  in
  _run query bindings callback.

(** [records[1]] *)
Definition second_item (records : list Row) : M Row :=
  match nth_error records 1 with
  | Some r => ret r
  | None => raise (IndexError "list index out of range")
  end.

Definition select_one (query : Query) (bindings : Bindings)
    : M (option Row) :=
  let bindings :=
    match bindings with
    | BNone => BDict []
    | _ => bindings
    end in
  records <- select query bindings true ;;
  if negb (Nat.eqb (List.length records) 0) then
    r <- second_item records ;; ret (Some r)
  else
    ret None.

(** ** Pretend mode *)

Definition enable_query_log : M unit :=
  modify_self (fun c => with_logging_queries c true).

Definition pretend {A} (callback : Code A) : M unit :=
  c <- get_self ;;
  let logging_queries := _logging_queries c in
  enable_query_log ;;
  modify_self (fun c => with_pretending c true) ;;
  lift callback ;;
  modify_self (fun c => with_pretending c false) ;;
  modify_self (fun c => with_logging_queries c logging_queries).

(** ** Observing a call *)

(** A method call from a world [w], with a fresh trace. *)
Definition result {A} (m : M A) (w : World) : Res A := fst (m (w, [])).
Definition world_after {A} (m : M A) (w : World) : World := fst (snd (m (w, []))).
Definition trace {A} (m : M A) (w : World) : Trace := snd (snd (m (w, []))).

Definition is_driver_call (ev : Event) : bool :=
  match ev with
  | Driver_commit _ | Driver_rollback _ => true
  | _ => false
  end.

Definition is_transaction_call (ev : Event) : bool :=
  match ev with
  | Called_commit | Called_rollback => true
  | _ => false
  end.

Definition is_attempt (ev : Event) : bool :=
  match ev with
  | Invoked_callback _ _ => true
  | _ => false
  end.

Definition is_reconnect (ev : Event) : bool :=
  match ev with
  | Called_reconnect => true
  | _ => false
  end.

Definition is_log_query (ev : Event) : bool :=
  match ev with
  | Called_log_query _ _ _ => true
  | _ => false
  end.

(** Physical commits and rollbacks issued to the driver. *)
Definition driver_calls (t : Trace) : Trace := filter is_driver_call t.
(** Calls of [commit()] and [rollback()]. *)
Definition transaction_calls (t : Trace) : Trace := filter is_transaction_call t.
(** Executions of the strategy. *)
Definition attempts (t : Trace) : nat := List.length (filter is_attempt t).
(** Calls of [reconnect()]. *)
Definition reconnects (t : Trace) : nat := List.length (filter is_reconnect t).
(** Calls of [log_query]. *)
Definition log_calls (t : Trace) : Trace := filter is_log_query t.

(** A caller issuing [begin_transaction()], [commit()] and [rollback()] one
    after the other, going on after a call that raised. *)
Inductive Call := Begin | Commit | Rollback.

Definition perform (c : Call) : M unit :=
  match c with
  | Begin => begin_transaction
  | Commit => commit
  | Rollback => rollback
  end.

(** The transaction level after each call of the sequence. *)
Fixpoint levels (calls : list Call) (w : World) : list Z :=
  match calls with
  | [] => []
  | c :: calls' =>
      let w' := world_after (perform c) w in
      _transactions (self w') :: levels calls' w'
  end.

(** No prefix of the sequence holds more commits and rollbacks than
    [k] plus its number of begins. *)
Fixpoint within_depth (k : Z) (calls : list Call) : bool :=
  match calls with
  | [] => true
  | Begin :: calls' => within_depth (k + 1) calls'
  | _ :: calls' => (1 <=? k) && within_depth (k - 1) calls'
  end.

Definition has_reconnector (c : Connection) : bool :=
  match _reconnector c with
  | Some (Function _) => true
  | _ => false
  end.

End Connection.

(** ** Statements, single-handle reads and nested scopes *)

Section Statements.

Context {Outside Callable Time : Type}.
Variable env : @Environment Outside Callable Time.

(** The two further things the statement methods ask of the driver: the
    [rowcount] attribute of a cursor, and [connection.execute(query)]. *)
Record Writes := mkWrites {
  cursor_rowcount : Cursor -> Outside -> Z;
  connection_execute : Handle -> Query -> ST Outside Value
}.

Variable drv : Writes.

(** [select] is called without [use_read_connection], which therefore
    keeps its default [True]. *)
Definition select_from_write_connection (query : Query) (bindings : Bindings)
    : M (list Row) :=
  let bindings :=
    match bindings with
    | BNone => BDict []
    | _ => bindings
    end in
  select env query bindings true.

Definition _get_cursor : @Code Outside Callable Cursor :=
  c <- gets self ;;
  cursor <- connection_cursor env (get_connection c) ;;
  modify (fun w => mkWorld (with_cursor (self w) (Some cursor)) (outside w)) ;;
  ret cursor.

Definition statement (query : Query) (bindings : Bindings) : M Value :=
  let callback : Callback Value :=
    fun query_ bindings_ =>
      me <- gets self ;;
      if _pretending me then ret (VBool true)
      else
        let bindings_ := prepare_bindings bindings_ in
        cursor <- _get_cursor ;;
        in_outside (cursor_execute env cursor query_ bindings_)
  in
  _run env query bindings callback.

Definition affecting_statement (query : Query) (bindings : Bindings)
    : M Value :=
  let callback : Callback Value :=
    fun query_ bindings_ =>
      me <- gets self ;;
      if _pretending me then ret (VBool true)
      else
        let bindings_ := prepare_bindings bindings_ in
        cursor <- connection_cursor env (get_connection me) ;;
        in_outside (cursor_execute env cursor query_ bindings_) ;;
        o <- gets outside ;;
        ret (VInt (cursor_rowcount drv cursor o))
  in
  _run env query bindings callback.

Definition insert (query : Query) (bindings : Bindings) : M Value :=
  statement query bindings.

Definition update (query : Query) (bindings : Bindings) : M Value :=
  affecting_statement query bindings.

Definition delete (query : Query) (bindings : Bindings) : M Value :=
  affecting_statement query bindings.

(** Python's [bool(v)]. *)
Definition truthy (v : Value) : bool :=
  match v with
  | VNone => false
  | VBool b => b
  | VInt n => negb (n =? 0)
  | VStr s => negb (String.eqb s "")
  end.

(** [connection.execute(query)] *)
Definition connection_execute_on (connection : option Handle) (query : Query)
    : @Code Outside Callable Value :=
  match connection with
  | Some h => in_outside (connection_execute drv h query)
  | None =>
      raise (AttributeError "'NoneType' object has no attribute 'execute'")
  end.

Definition unprepared (query : Query) : M Value :=
  let callback : Callback Value :=
    fun query_ _ =>
      me <- gets self ;;
      if _pretending me then ret (VBool true)
      else
        v <- connection_execute_on (get_connection me) query_ ;;
        ret (VBool (truthy v))
  in
  _run env query (BDict []) callback.

Definition disable_query_log : @M Outside Callable Time unit :=
  modify_self (fun c => with_logging_queries c false).

(** A method called from caller's code, a callback or the body of a [with]
    block: its effect on the world, its calls not being the caller's. *)
Definition as_code {A} (m : @M Outside Callable Time A) : Code A :=
  fun w => let (r, s) := m (w, []) in (r, fst s).

(** [with connection.transaction(): body], for a body that is itself made
    of method calls; [transaction] is the case of a body that is plain
    code. *)
Definition transaction_around {A} (body : M A) : M A :=
  begin_transaction ;;
  a <- try_except body (fun e => rollback env ;; raise e) ;;
  try_except (commit env) (fun e => rollback env ;; raise e) ;;
  ret a.

(** The same call [n] times in a row, stopping at the first that raises. *)
Fixpoint times (n : nat) (m : @M Outside Callable Time unit) : M unit :=
  match n with
  | O => ret tt
  | S n' => m ;; times n' m
  end.

(** The world after a sequence of transaction calls, a call that raised
    being followed by the next one. *)
Fixpoint after_calls (calls : list Call) (w : World) : World :=
  match calls with
  | [] => w
  | c :: calls' => after_calls calls' (world_after (perform env c) w)
  end.

End Statements.

(** ** Concrete surroundings

    A driver with one integer of outside state, used to run the model on
    examples.  [commit_ok] and [rollback_ok] say whether the driver's
    [commit()] and [rollback()] return or raise; [fetched] is what
    [fetchall()] hands back.  Callable [n] installs handle [n] as the write
    connection and bumps the outside state. *)

Definition driver_error : Exn := Error "OperationalError" "server closed the connection unexpectedly".

Definition sample_env (commit_ok rollback_ok : bool) (fetched : list Row)
    : @Environment Z nat Z :=
  {| dbapi_commit := fun _ o =>
       if commit_ok then (Return tt, o) else (Raise driver_error, o);
     dbapi_rollback := fun _ o =>
       if rollback_ok then (Return tt, o) else (Raise driver_error, o);
     dbapi_cursor := fun h o => (Return h, o);
     cursor_execute := fun _ _ _ o => (Return VNone, o);
     cursor_fetchall := fun _ o => (Return fetched, o);
     call := fun n w =>
       (Return VNone, mkWorld (with_connection (self w) (Some n)) (outside w + 1));
     time_time := fun o => o;
     elapsed_ms := fun start stop => stop - start |}.

Definition good_env : @Environment Z nat Z := sample_env true true [].

(** A freshly constructed connection on handle 1, outside state 0. *)
Definition fresh : @World Z nat := mkWorld (init (Some 1%nat)) 0.

Definition in_transaction : @World Z nat :=
  mkWorld (with_transactions (init (Some 1%nat)) 1) 0.

(** Callbacks: one that always fails with a syntax error, one that always
    fails with a lost connection, one that fails with a lost connection
    until somebody has reconnected. *)
Definition syntax_error : Exn := Error "ProgrammingError" "syntax error at or near FROM".
Definition gone_away : Exn := Error "OperationalError" "MySQL server has gone away".

Definition failing_callback : @Callback Z nat Value :=
  fun _ _ w => (Raise syntax_error, w).

Definition lost_callback : @Callback Z nat Value :=
  fun _ _ w => (Raise gone_away, w).

Definition flaky_callback : @Callback Z nat Value :=
  fun _ _ w =>
    if outside w =? 0 then (Raise gone_away, w) else (Return (VInt 1), w).

Definition failing_work : @Code Z nat Value :=
  fun w => (Raise syntax_error, w).

Definition quiet_work : @Code Z nat Value :=
  fun w => (Return VNone, w).

(** ** The specification's wording

    The statements of the specification that the code does not meet, as
    predicates on a run, to be tested on the concrete surroundings
    above. *)

Section Stated.

Context {Outside Callable Time : Type}.
Variable env : @Environment Outside Callable Time.

(** "If matched, [reconnect()] is called exactly once and the strategy is
    re-executed exactly once more; if not matched, the wrapped error
    propagates with exactly one execution attempt and zero reconnect
    calls." *)
Definition spec_retry_once {A : Type} (query : Query) (bindings : Bindings)
    (callback : @Callback Outside Callable A) (w : World) : Prop :=
  let m := _run env query bindings callback in
  forall e w2,
    callback query bindings
      (world_after (_reconnect_if_missing_connection env) w) = (Raise e, w2) ->
    if _caused_by_lost_connection e then
      reconnects (trace m w) = 1%nat /\ attempts (trace m w) = 2%nat
    else
      result m w = Raise (QueryException query (prepare_bindings bindings) e) /\
      attempts (trace m w) = 1%nat /\ reconnects (trace m w) = 0%nat.

(** "After [pretend(work)] returns or raises, the pretend flag is false and
    the query-logging flag equals its value from before the call." *)
Definition spec_pretend_restores {A : Type}
    (work : @Code Outside Callable A) (w : World) : Prop :=
  let w' := world_after (pretend (Time := Time) work) w in
  _pretending (self w') = false /\
  _logging_queries (self w') = _logging_queries (self w).

(** "With query logging enabled, the logging hook is invoked exactly once,
    both when the statement succeeds and when it is about to propagate as
    a failure." *)
Definition spec_logs_exactly_once {A : Type}
    (query : Query) (bindings : Bindings)
    (callback : @Callback Outside Callable A) (w : World) : Prop :=
  _logging_queries (self w) = true ->
  List.length (log_calls (trace (_run env query bindings callback) w)) = 1%nat.

(** "Starting from level 0, after any sequence of calls the level never
    goes negative." *)
Definition spec_level_never_negative (calls : list Call) (w : World) : Prop :=
  _transactions (self w) = 0 ->
  Forall (fun l => 0 <= l) (levels env calls w).

(** "If the work raises any error, [rollback()] is called, [commit()] is
    not, and the original error is re-raised unchanged." *)
Definition spec_scope_reraises {A : Type}
    (work : @Code Outside Callable A) (w : World) : Prop :=
  forall e w2,
    work (world_after (perform env Begin) w) = (Raise e, w2) ->
    transaction_calls (trace (transaction env work) w) = [Called_rollback] /\
    result (transaction env work) w = Raise e.

(** "commit() issues a physical commit on the write connection if and only
    if L == 1 (then the level becomes 0)." *)
Definition spec_commit_fires_at_level_one (w : World) : Prop :=
  _transactions (self w) = 1 ->
  (exists h, driver_calls (trace (commit env) w) = [Driver_commit h]) /\
  _transactions (self (world_after (commit env) w)) = 0.

(** "begin(); begin(); commit(); commit() performs exactly one physical
    commit and ends with level 0." *)
Definition spec_nested_commits_end_at_zero (w : World) : Prop :=
  _transactions (self w) = 0 ->
  let nested :=
    begin_transaction ;; begin_transaction ;; commit env ;; commit env in
  List.length (driver_calls (trace nested w)) = 1%nat /\
  _transactions (self (world_after nested w)) = 0.

End Stated.

(** More concrete worlds. *)

(** Query logging switched on. *)
Definition logging : @World Z nat :=
  mkWorld (with_logging_queries (init (Some 1%nat)) true) 0.

(** A reconnector installed: callable 5. *)
Definition reconnectable : @World Z nat :=
  mkWorld (with_reconnector (init (Some 1%nat)) (Some (Function 5%nat))) 0.

(** A read replica on handle 2, inside a transaction. *)
Definition replica_in_transaction : @Connection nat :=
  with_transactions (with_read_connection (init (Some 1%nat)) (Some 2%nat)) 1.

(** Constructed without a handle, with callable 5 as reconnector. *)
Definition handle_missing : @World Z nat :=
  mkWorld (with_reconnector (init None) (Some (Function 5%nat))) 0.

Definition row (n : Z) : Row := [VInt n].

(** The rest of the driver: every cursor reports three affected rows and
    [connection.execute] answers 1. *)
Definition sample_writes : @Writes Z :=
  {| cursor_rowcount := fun _ _ => 3;
     connection_execute := fun _ _ o => (Return (VInt 1), o) |}.

(** A driver on which only handle 2, the replica, can open a cursor. *)
Definition replica_env (fetched : list Row) : @Environment Z nat Z :=
  let base := sample_env true true fetched in
  mkEnvironment (dbapi_commit base) (dbapi_rollback base)
    (fun h o =>
       if Nat.eqb h 2 then (Return h, o) else (Raise driver_error, o))
    (cursor_execute base) (cursor_fetchall base) (call base)
    (time_time base) (elapsed_ms base).

(** A driver whose [execute()] finds the server gone until somebody has
    reconnected. *)
Definition flaky_env (fetched : list Row) : @Environment Z nat Z :=
  let base := sample_env true true fetched in
  mkEnvironment (dbapi_commit base) (dbapi_rollback base) (dbapi_cursor base)
    (fun _ _ _ o =>
       if o =? 0 then (Raise gone_away, o) else (Return VNone, o))
    (cursor_fetchall base) (call base) (time_time base) (elapsed_ms base).

(** A connection in pretend mode. *)
Definition pretending_world : @World Z nat :=
  mkWorld (with_pretending (init (Some 1%nat)) true) 0.

(** A read replica on handle 2, outside any transaction. *)
Definition with_replica : @World Z nat :=
  mkWorld (with_read_connection (init (Some 1%nat)) (Some 2%nat)) 0.

(** Code that reports whether the connection is pretending. *)
Definition report_pretending : @Code Z nat Value :=
  fun w => (Return (VBool (_pretending (self w))), w).

(** * Properties *)

(** Symbolic evaluation of monadic code. *)
Ltac st_unfold :=
  repeat
    (progress
       (cbv beta delta
          [result world_after trace bind ret raise try_except gets modify
           emit lift lift_outside in_outside get_self modify_self] in *;
        cbn in *)).

Section Properties.

Context {Outside Callable Time : Type}.
Variable env : @Environment Outside Callable Time.

(** ** Routing *)

(** C6.  [get_read_connection] returns the write handle whenever the
    transaction level is at least 1 or no read handle is configured, and
    the configured read handle otherwise; at level 1 or more a configured
    read handle is never returned in place of the write handle. *)
Theorem get_read_connection_routing (c : @Connection Callable) :
  (1 <= _transactions c \/ _read_connection c = None ->
   get_read_connection c = get_connection c) /\
  (forall h, _transactions c < 1 -> _read_connection c = Some h ->
   get_read_connection c = Some h) /\
  (forall h, 1 <= _transactions c -> _read_connection c = Some h ->
   get_read_connection c = _connection c).
Proof.
  unfold get_read_connection, get_connection.
  repeat split.
  - intros [Hl | Hr].
    + destruct (Z.geb_spec (_transactions c) 1); [reflexivity | lia].
    + rewrite Hr. now destruct (_transactions c >=? 1).
  - intros h Hl Hr. rewrite Hr.
    destruct (Z.geb_spec (_transactions c) 1); [lia | reflexivity].
  - intros h Hl _.
    destruct (Z.geb_spec (_transactions c) 1); [reflexivity | lia].
Qed.

(** ** Transaction manager *)

Lemma commit_level_step (w : World) :
  _transactions (self w) - 1 <= _transactions (self (world_after (commit env) w)).
Proof.
  destruct w as [c o]. unfold commit, connection_commit. st_unfold. cbn.
  destruct (_transactions c =? 1) eqn:E; cbn; [| lia].
  destruct (_connection c) as [h |]; cbn; [| lia].
  destruct (dbapi_commit env h o) as [[u | e] o']; cbn; lia.
Qed.

Lemma rollback_level_step (w : World) :
  _transactions (self (world_after (rollback env) w)) =
  if _transactions (self w) =? 1 then 0 else _transactions (self w) - 1.
Proof.
  destruct w as [c o]. unfold rollback, connection_rollback. st_unfold. cbn.
  destruct (_transactions c =? 1) eqn:E; cbn; [| reflexivity].
  destruct (_connection c) as [h |]; cbn; [| reflexivity].
  destruct (dbapi_rollback env h o) as [[u | e] o']; reflexivity.
Qed.

Lemma levels_within_depth (calls : list Call) :
  forall (k : Z) (w : World),
    0 <= k ->
    k <= _transactions (self w) ->
    within_depth k calls = true ->
    Forall (fun l => 0 <= l) (levels env calls w).
Proof.
  induction calls as [| c calls IH]; intros k w H0 Hk Hd; cbn [levels].
  - constructor.
  - destruct c; cbn [within_depth] in *.
    + assert (Hb : _transactions (self (world_after (perform env Begin) w))
                   = _transactions (self w) + 1) by reflexivity.
      constructor; [lia |].
      apply (IH (k + 1)); [lia | lia | exact Hd].
    + apply andb_prop in Hd as [H1 Hd]. apply Z.leb_le in H1.
      pose proof (commit_level_step w) as Hc. cbn [perform].
      constructor; [lia |].
      apply (IH (k - 1)); [lia | lia | exact Hd].
    + apply andb_prop in Hd as [H1 Hd]. apply Z.leb_le in H1.
      pose proof (rollback_level_step w) as Hr. cbn [perform].
      destruct (Z.eqb_spec (_transactions (self w)) 1) as [E | E].
      * constructor; [lia |].
        apply (IH (k - 1)); [lia | lia | exact Hd].
      * constructor; [lia |].
        apply (IH (k - 1)); [lia | lia | exact Hd].
Qed.

(** C7, as the code has it.  From level 0, a sequence of calls in which
    every [commit()] and [rollback()] closes a [begin_transaction()] that
    is still open never takes the level below 0; a [commit()] or
    [rollback()] at level 0 takes it to -1. *)
Theorem transaction_level_nonnegative_when_balanced
    (calls : list Call) (w : World) :
  _transactions (self w) = 0 ->
  (within_depth 0 calls = true ->
   Forall (fun l => 0 <= l) (levels env calls w)) /\
  levels env [Commit] w = [-1] /\
  levels env [Rollback] w = [-1].
Proof.
  intros H. split; [| split].
  - intros Hd. apply (levels_within_depth calls 0 w); [lia | lia | exact Hd].
  - destruct w as [[cn cu rc re tr pr lq] o]. cbn in H. subst tr.
    reflexivity.
  - destruct w as [[cn cu rc re tr pr lq] o]. cbn in H. subst tr.
    reflexivity.
Qed.

(** C2, as the code has it.  At transaction level [L], [commit()] calls
    the driver's commit exactly when [L = 1] and a write handle is there:
    when the driver returns, the level becomes 0; when it raises, the
    error propagates and the level stays 1; with no write handle the
    attribute lookup fails, no driver call is made and the level stays 1.
    [rollback()] at [L = 1] sets the level to 0 and then calls the
    driver's rollback, whose answer is its own.  At any other level both
    only decrement the level, with no driver call.  In every case the
    driver's session is what the driver's call left.  From level 0 with a
    write handle, [begin(); begin(); commit(); commit()] issues one
    physical commit, in the second [commit()], and ends at level 0 when
    the driver returns and at level 1 when it raises;
    [begin(); begin(); rollback(); rollback()] issues one physical
    rollback, in the second [rollback()], and ends at level 0. *)
Theorem commit_rollback_fire_at_level_one (w : World) :
  let L := _transactions (self w) in
  let at_level (n : Z) (o : Outside) :=
    mkWorld (with_transactions (self w) n) o in
  commit env (w, [])
  = (if L =? 1 then
       match _connection (self w) with
       | Some h =>
           match dbapi_commit env h (outside w) with
           | (Return _, o) =>
               (Return tt, (at_level 0 o, [Called_commit; Driver_commit h]))
           | (Raise e, o) =>
               (Raise e, (at_level 1 o, [Called_commit; Driver_commit h]))
           end
       | None =>
           (Raise
              (AttributeError "'NoneType' object has no attribute 'commit'"),
            (at_level 1 (outside w), [Called_commit]))
       end
     else (Return tt, (at_level (L - 1) (outside w), [Called_commit]))) /\
  rollback env (w, [])
  = (if L =? 1 then
       match _connection (self w) with
       | Some h =>
           (fst (dbapi_rollback env h (outside w)),
            (at_level 0 (snd (dbapi_rollback env h (outside w))),
             [Called_rollback; Driver_rollback h]))
       | None =>
           (Raise
              (AttributeError
                 "'NoneType' object has no attribute 'rollback'"),
            (at_level 0 (outside w), [Called_rollback]))
       end
     else (Return tt, (at_level (L - 1) (outside w), [Called_rollback]))) /\
  (forall h,
     L = 0 ->
     _connection (self w) = Some h ->
     (begin_transaction ;; begin_transaction ;; commit env ;; commit env)
       (w, [])
     = (match dbapi_commit env h (outside w) with
        | (Return _, o) =>
            (Return tt,
             (at_level 0 o, [Called_commit; Called_commit; Driver_commit h]))
        | (Raise e, o) =>
            (Raise e,
             (at_level 1 o, [Called_commit; Called_commit; Driver_commit h]))
        end) /\
     (begin_transaction ;; begin_transaction ;; rollback env) (w, [])
     = (Return tt, (at_level 1 (outside w), [Called_rollback])) /\
     (begin_transaction ;; begin_transaction ;; rollback env ;; rollback env)
       (w, [])
     = (fst (dbapi_rollback env h (outside w)),
        (at_level 0 (snd (dbapi_rollback env h (outside w))),
         [Called_rollback; Called_rollback; Driver_rollback h]))).
Proof.
  destruct w as [[cn cu rc re tr pr lq] o].
  cbn [self outside _connection _transactions]. cbn zeta.
  split; [| split].
  - unfold commit, connection_commit. st_unfold.
    destruct (Z.eqb_spec tr 1) as [-> | Hne]; [| reflexivity].
    destruct cn as [h |]; [| reflexivity]. st_unfold.
    destruct (dbapi_commit env h o) as [[u | e] o']; reflexivity.
  - unfold rollback, connection_rollback. st_unfold.
    destruct (Z.eqb_spec tr 1) as [-> | Hne]; [| reflexivity].
    destruct cn as [h |]; [| reflexivity]. st_unfold.
    destruct (dbapi_rollback env h o) as [[u | e] o']; reflexivity.
  - intros h -> ->. split; [| split].
    + unfold begin_transaction, commit, connection_commit. st_unfold.
      destruct (dbapi_commit env h o) as [[u | e] o']; reflexivity.
    + reflexivity.
    + unfold begin_transaction, rollback, connection_rollback. st_unfold.
      destruct (dbapi_rollback env h o) as [[u | e] o']; reflexivity.
Qed.

(** ** Execution pipeline *)

(** Each step of the pipeline as an equation on the world and the trace. *)

Lemma caused_by_lost_connection_wrapped
    (query : Query) (bindings : Bindings) (e : Exn) :
  _caused_by_lost_connection (QueryException query bindings e)
  = _caused_by_lost_connection e.
Proof. reflexivity. Qed.

Lemma reconnect_run (w : World) (t : Trace) :
  reconnect env (w, t)
  = match _reconnector (self w) with
    | Some (Function f) =>
        let (r, w') := call env f w in (r, (w', t ++ [Called_reconnect]))
    | _ =>
        (Raise no_reconnector_available, (w, t ++ [Called_reconnect]))
    end.
Proof.
  unfold reconnect. st_unfold.
  destruct (_reconnector (self w)) as [[v | f] |]; reflexivity.
Qed.

Lemma missing_connection (c : @Connection Callable) :
  is_None (get_connection c) || is_None (get_read_connection c)
  = is_None (_connection c).
Proof.
  unfold get_read_connection, get_connection.
  destruct (_connection c), (_transactions c >=? 1), (_read_connection c);
    reflexivity.
Qed.

Lemma reconnect_if_missing_connection_run (w : World) (t : Trace) :
  _reconnect_if_missing_connection env (w, t)
  = if is_None (_connection (self w)) then
      match reconnect env (w, t) with
      | (Return _, s) => (Return tt, s)
      | (Raise e, s) => (Raise e, s)
      end
    else (Return tt, (w, t)).
Proof.
  unfold _reconnect_if_missing_connection. st_unfold.
  rewrite missing_connection.
  destruct (is_None (_connection (self w))); reflexivity.
Qed.

Lemma run_query_callback_run {A : Type}
    (query : Query) (bindings : Bindings)
    (callback : @Callback Outside Callable A)
    (w : World) (t : @Trace Time) :
  _run_query_callback query bindings callback (w, t)
  = match callback query bindings w with
    | (Return a, w') => (Return a, (w', t ++ [Invoked_callback query bindings]))
    | (Raise e, w') =>
        (Raise (QueryException query (prepare_bindings bindings) e),
         (w', t ++ [Invoked_callback query bindings]))
    end.
Proof.
  unfold _run_query_callback. st_unfold.
  destruct (callback query bindings w) as [[a | e] w']; reflexivity.
Qed.

#[local] Arguments reconnect : simpl never.
#[local] Arguments _reconnect_if_missing_connection : simpl never.
#[local] Arguments _run_query_callback : simpl never.
#[local] Arguments _caused_by_lost_connection : simpl never.

Lemma run_run {A : Type}
    (query : Query) (bindings : Bindings)
    (callback : @Callback Outside Callable A) (s : World * Trace) :
  let attempt := Invoked_callback query bindings in
  let wrapped := QueryException query (prepare_bindings bindings) in
  let logged (w1 w2 : World) :=
    Called_log_query query bindings
      (elapsed_ms env (time_time env (outside w1))
         (time_time env (outside w2))) in
  _run env query bindings callback s
  = match _reconnect_if_missing_connection env s with
    | (Raise e, s1) => (Raise e, s1)
    | (Return _, (w1, t1)) =>
        match callback query bindings w1 with
        | (Return a, w2) =>
            (Return a, (w2, (t1 ++ [attempt]) ++ [logged w1 w2]))
        | (Raise e, w2) =>
            if _caused_by_lost_connection e then
              match reconnect env (w2, t1 ++ [attempt]) with
              | (Raise e', s3) => (Raise e', s3)
              | (Return _, (w3, t3)) =>
                  match callback query bindings w3 with
                  | (Return a, w4) =>
                      (Return a, (w4, (t3 ++ [attempt]) ++ [logged w1 w4]))
                  | (Raise e2, w4) =>
                      (Raise (wrapped e2), (w4, t3 ++ [attempt]))
                  end
              end
            else (Raise (wrapped e), (w2, t1 ++ [attempt]))
        end
    end.
Proof.
  unfold _run, _try_again_if_caused_by_lost_connection, log_query,
    _get_elapsed_time, now.
  st_unfold.
  destruct (_reconnect_if_missing_connection env s) as [[u | e] [w1 t1]];
    [| reflexivity].
  cbn [fst snd]. rewrite run_query_callback_run.
  destruct (callback query bindings w1) as [[a | e] w2]; cbn.
  - destruct (negb (_logging_queries (self w2))); reflexivity.
  - rewrite caused_by_lost_connection_wrapped.
    destruct (_caused_by_lost_connection e); [| reflexivity].
    destruct (reconnect env (w2, t1 ++ [Invoked_callback query bindings]))
      as [[v | e'] [w3 t3]]; [| reflexivity].
    cbn. rewrite run_query_callback_run.
    destruct (callback query bindings w3) as [[a | e2] w4]; [| reflexivity].
    cbn. destruct (negb (_logging_queries (self w4))); reflexivity.
Qed.

(** C1, as the code has it.  Before the first attempt the guard calls
    [reconnect()] when the write handle is missing, and a failure of that
    call ends the run with no attempt.  After a first attempt that fails
    with a lost-connection message, [reconnect()] is called once more; if it
    returns, the strategy is executed a second and last time, a second
    failure being wrapped and raised; if it raises, that error is raised
    and the strategy is not executed again.  A first failure with any
    other message is wrapped and raised at once, with no further
    [reconnect()].  The strategy is never executed more than twice. *)
Theorem run_retries_once_after_reconnect {A : Type}
    (query : Query) (bindings : Bindings)
    (callback : @Callback Outside Callable A) (w : World) :
  let r := result (_run env query bindings callback) w in
  let t := trace (_run env query bindings callback) w in
  let guard := _reconnect_if_missing_connection env in
  let wrapped := QueryException query (prepare_bindings bindings) in
  (attempts t <= 2)%nat /\
  reconnects (trace guard w)
  = (if is_None (_connection (self w)) then 1 else 0)%nat /\
  match result guard w with
  | Raise e => r = Raise e /\ attempts t = 0%nat /\ reconnects t = 1%nat
  | Return _ =>
      match callback query bindings (world_after guard w) with
      | (Return a, _) =>
          r = Return a /\ attempts t = 1%nat /\
          reconnects t = reconnects (trace guard w)
      | (Raise e, w2) =>
          if _caused_by_lost_connection e then
            reconnects t = (reconnects (trace guard w) + 1)%nat /\
            match result (reconnect env) w2 with
            | Raise e' => r = Raise e' /\ attempts t = 1%nat
            | Return _ =>
                attempts t = 2%nat /\
                match fst (callback query bindings
                             (world_after (reconnect env) w2)) with
                | Return a => r = Return a
                | Raise e2 => r = Raise (wrapped e2)
                end
            end
          else
            r = Raise (wrapped e) /\ attempts t = 1%nat /\
            reconnects t = reconnects (trace guard w)
      end
  end.
Proof.
  cbn zeta. unfold result, trace, world_after.
  rewrite run_run. cbn zeta.
  rewrite !reconnect_if_missing_connection_run, !reconnect_run.
  destruct (_connection (self w)) as [h |]; cbn [is_None].
  - cbn. destruct (callback query bindings w) as [[a | e] w2]; cbn.
    + repeat split; lia.
    + destruct (_caused_by_lost_connection e).
      * rewrite !reconnect_run.
        destruct (_reconnector (self w2)) as [[v | f] |]; cbn;
          try (repeat split; lia).
        destruct (call env f w2) as [[v | e'] w3]; cbn;
          try (repeat split; lia).
        destruct (callback query bindings w3) as [[a | e2] w4]; cbn;
          repeat split; lia.
      * cbn. repeat split; lia.
  - destruct (_reconnector (self w)) as [[v | f] |]; cbn;
      try (repeat split; lia).
    destruct (call env f w) as [[v | e0] w1]; cbn;
      try (repeat split; lia).
    destruct (callback query bindings w1) as [[a | e] w2]; cbn.
    + repeat split; lia.
    + destruct (_caused_by_lost_connection e).
      * rewrite !reconnect_run.
        destruct (_reconnector (self w2)) as [[v' | f'] |]; cbn;
          try (repeat split; lia).
        destruct (call env f' w2) as [[v' | e'] w3]; cbn;
          try (repeat split; lia).
        destruct (callback query bindings w3) as [[a | e2] w4]; cbn;
          repeat split; lia.
      * cbn. repeat split; lia.
Qed.

(** C5, as the code has it.  When [_run] returns a result, from the first
    attempt or from the retry, [log_query] has been called exactly once,
    with the statement, the bindings and the elapsed time, as the last
    step of the run; when [_run] raises, [log_query] has not been
    called. *)
Theorem run_logs_once_when_it_returns {A : Type}
    (query : Query) (bindings : Bindings)
    (callback : @Callback Outside Callable A) (w : World) :
  let m := _run env query bindings callback in
  let start :=
    time_time env
      (outside (world_after (_reconnect_if_missing_connection env) w)) in
  let stop := time_time env (outside (world_after m w)) in
  let logged := Called_log_query query bindings (elapsed_ms env start stop) in
  match result m w with
  | Return _ =>
      log_calls (trace m w) = [logged] /\
      exists t0, trace m w = t0 ++ [logged]
  | Raise _ => log_calls (trace m w) = []
  end.
Proof.
  cbn zeta. unfold result, trace, world_after.
  rewrite run_run. cbn zeta.
  rewrite !reconnect_if_missing_connection_run, !reconnect_run.
  destruct (_connection (self w)) as [h |]; cbn [is_None].
  - cbn. destruct (callback query bindings w) as [[a | e] w2]; cbn.
    + split; [reflexivity | now exists [Invoked_callback query bindings]].
    + destruct (_caused_by_lost_connection e); [| reflexivity].
      rewrite !reconnect_run.
      destruct (_reconnector (self w2)) as [[v | f] |]; cbn;
        try reflexivity.
      destruct (call env f w2) as [[v | e'] w3]; cbn; try reflexivity.
      destruct (callback query bindings w3) as [[a | e2] w4]; cbn;
        [| reflexivity].
      split; [reflexivity |].
      now exists [Invoked_callback query bindings; Called_reconnect;
                  Invoked_callback query bindings].
  - destruct (_reconnector (self w)) as [[v | f] |]; cbn; try reflexivity.
    destruct (call env f w) as [[v | e0] w1]; cbn; try reflexivity.
    destruct (callback query bindings w1) as [[a | e] w2]; cbn.
    + split; [reflexivity |].
      now exists [Called_reconnect; Invoked_callback query bindings].
    + destruct (_caused_by_lost_connection e); [| reflexivity].
      rewrite !reconnect_run.
      destruct (_reconnector (self w2)) as [[v' | f'] |]; cbn;
        try reflexivity.
      destruct (call env f' w2) as [[v' | e'] w3]; cbn; try reflexivity.
      destruct (callback query bindings w3) as [[a | e2] w4]; cbn;
        [| reflexivity].
      split; [reflexivity |].
      now exists [Called_reconnect; Invoked_callback query bindings;
                  Called_reconnect; Invoked_callback query bindings].
Qed.

(** ** Reconnection controller *)

(** C9.  Without a reconnector, [reconnect()] raises the "no reconnector
    available" error and changes nothing; with one, it calls it on the
    connection and returns what it returns.  Inside [_run] the error is
    final: raised by the guard it ends the run before any attempt, raised
    on the retry path it ends the run after the one attempt, and in both
    cases [reconnect()] has been called once. *)
Theorem reconnect_without_reconnector_is_final {A : Type}
    (query : Query) (bindings : Bindings)
    (callback : @Callback Outside Callable A) (w : World) :
  let m := _run env query bindings callback in
  (has_reconnector (self w) = false ->
   result (reconnect env) w = Raise no_reconnector_available /\
   contains "no reconnector available" (message no_reconnector_available)
   = true /\
   world_after (reconnect env) w = w /\
   trace (reconnect env) w = [Called_reconnect]) /\
  (forall f, _reconnector (self w) = Some (Function f) ->
   result (reconnect env) w = fst (call env f w) /\
   world_after (reconnect env) w = snd (call env f w) /\
   trace (reconnect env) w = [Called_reconnect]) /\
  (has_reconnector (self w) = false ->
   _connection (self w) = None ->
   result m w = Raise no_reconnector_available /\
   trace m w = [Called_reconnect]) /\
  (forall e w2,
   _connection (self w) <> None ->
   callback query bindings w = (Raise e, w2) ->
   _caused_by_lost_connection e = true ->
   has_reconnector (self w2) = false ->
   result m w = Raise no_reconnector_available /\
   trace m w = [Invoked_callback query bindings; Called_reconnect]).
Proof.
  cbn zeta. unfold result, trace, world_after, has_reconnector.
  rewrite run_run. cbn zeta.
  rewrite !reconnect_if_missing_connection_run, !reconnect_run.
  split; [| split; [| split]].
  - intros Hnone.
    destruct (_reconnector (self w)) as [[v | f] |];
      try discriminate Hnone; repeat split.
  - intros f Hf. rewrite Hf.
    destruct (call env f w) as [r w']; repeat split.
  - intros Hnone Hmissing. rewrite Hmissing. cbn.
    destruct (_reconnector (self w)) as [[v | f] |];
      try discriminate Hnone; split; reflexivity.
  - intros e w2 Hpresent Hfirst Hlost Hnone.
    destruct (_connection (self w)) as [h |]; [| contradiction]. cbn.
    rewrite Hfirst, Hlost, reconnect_run.
    destruct (_reconnector (self w2)) as [[v | f] |];
      try discriminate Hnone; split; reflexivity.
Qed.

(** ** Scoped transaction *)

(** C8, as the code has it.  [transaction()] begins, runs the work, and:
    if the work returns, calls [commit()], and only when that raises calls
    [rollback()]; if the work raises, calls [rollback()] and never
    [commit()].  The error that leaves the scope is the work's, or the
    commit's, unchanged, as long as [rollback()] returns; when
    [rollback()] itself raises, its error leaves the scope instead. *)
Theorem transaction_commits_or_rolls_back {A : Type}
    (work : @Code Outside Callable A) (w : World) :
  let m := transaction env work in
  let calls := transaction_calls (trace m w) in
  let cleanup (e : Exn) (w' : World) :=
    match result (rollback env) w' with
    | Return _ => Raise e
    | Raise e' => Raise e'
    end in
  match work (world_after (perform env Begin) w) with
  | (Return a, w2) =>
      match result (commit env) w2 with
      | Return _ => calls = [Called_commit] /\ result m w = Return a
      | Raise e =>
          calls = [Called_commit; Called_rollback] /\
          result m w = cleanup e (world_after (commit env) w2)
      end
  | (Raise e, w2) =>
      calls = [Called_rollback] /\ result m w = cleanup e w2
  end.
Proof.
  destruct w as [[cn cu rc re tr pr lq] o]. cbn zeta.
  unfold transaction, begin_transaction, perform. st_unfold.
  destruct (work _) as [[a | e] [[cn2 cu2 rc2 re2 tr2 pr2 lq2] o2]]; cbn.
  - unfold commit, connection_commit, rollback, connection_rollback.
    st_unfold.
    destruct (tr2 =? 1) eqn:E; cbn.
    + destruct cn2 as [h |]; cbn.
      * destruct (dbapi_commit env h o2) as [[u | e] o3]; cbn;
          [split; reflexivity |].
        rewrite E. cbn.
        destruct (dbapi_rollback env h o3) as [[u | e'] o4]; cbn;
          split; reflexivity.
      * rewrite E. cbn. split; reflexivity.
    + split; reflexivity.
  - unfold rollback, connection_rollback. st_unfold.
    destruct (tr2 =? 1) eqn:E; cbn; [| split; reflexivity].
    destruct cn2 as [h |]; cbn; [| split; reflexivity].
    destruct (dbapi_rollback env h o2) as [[u | e'] o3]; cbn;
      split; reflexivity.
Qed.

(** ** Pretend mode *)

(** C3, as the code has it.  [pretend(work)] runs the work with the
    pretend flag set and query logging enabled.  When the work returns,
    the pretend flag is false afterwards and the logging flag has its value
    from before the call; when the work raises, [pretend] does nothing
    more: the error propagates and the world is as the work left it. *)
Theorem pretend_restores_flags_on_return {A : Type}
    (work : @Code Outside Callable A) (w : World) :
  let m := pretend (Time := Time) work in
  let during :=
    mkWorld (with_pretending (with_logging_queries (self w) true) true)
      (outside w) in
  _pretending (self during) = true /\
  _logging_queries (self during) = true /\
  match work during with
  | (Return _, w2) =>
      result m w = Return tt /\
      _pretending (self (world_after m w)) = false /\
      _logging_queries (self (world_after m w)) = _logging_queries (self w) /\
      world_after m w
      = mkWorld
          (with_logging_queries (with_pretending (self w2) false)
             (_logging_queries (self w)))
          (outside w2)
  | (Raise e, w2) => result m w = Raise e /\ world_after m w = w2
  end.
Proof.
  cbn zeta. unfold pretend, enable_query_log. st_unfold.
  split; [reflexivity | split; [reflexivity |]].
  destruct (work _) as [[a | e] w2]; cbn; repeat split; reflexivity.
Qed.

(** ** Handle setters *)

Lemma set_connection_guard (connection : option Handle)
    (w : @World Outside Callable) :
  let m := set_connection (Time := Time) connection in
  (1 <= _transactions (self w) ->
   result m w
   = Raise (RuntimeError "Can't swap dbapi connectionwhile within transaction.") /\
   world_after m w = w) /\
  (_transactions (self w) < 1 ->
   result m w = Return tt /\
   world_after m w = mkWorld (with_connection (self w) connection) (outside w)).
Proof.
  cbn zeta. unfold set_connection. st_unfold. destruct w as [c o]. cbn.
  destruct (Z.geb_spec (_transactions c) 1); cbn; split; intros; try lia;
    split; reflexivity.
Qed.

Lemma set_read_connection_installs (connection : option Handle)
    (w : @World Outside Callable) :
  let m := set_read_connection (Time := Time) connection in
  result m w = Return tt /\
  world_after m w
  = mkWorld (with_read_connection (self w) connection) (outside w).
Proof. split; reflexivity. Qed.

(** ** Single-record reads *)

(** C10.  [select_one] returns [None] when [select] returns no record; for
    two records or more it returns the one at index 1, the second; for
    exactly one record the index is out of range and it raises.  An error
    of [select] is passed on. *)
Theorem select_one_returns_record_at_index_one
    (query : Query) (bindings : Bindings) (w : World) :
  let bindings' :=
    match bindings with
    | BNone => BDict []
    | _ => bindings
    end in
  match result (select env query bindings' true) w with
  | Return [] => result (select_one env query bindings) w = Return None
  | Return [only] =>
      result (select_one env query bindings) w
      = Raise (IndexError "list index out of range")
  | Return (first :: second :: _) =>
      result (select_one env query bindings) w = Return (Some second)
  | Raise e => result (select_one env query bindings) w = Raise e
  end.
Proof.
  cbn zeta. unfold select_one, second_item. st_unfold.
  destruct (select env _ _ true (w, [])) as [[records | e] s]; cbn;
    [| reflexivity].
  destruct records as [| first [| second rest]]; reflexivity.
Qed.

End Properties.

(** * The model on concrete runs *)

(** A lost connection, a reconnector and a callback that works once
    somebody has reconnected: two attempts, one reconnect, one log entry,
    and the second attempt's result. *)
Example run_retry_succeeds :
  _run good_env "select 1" BNone flaky_callback (reconnectable, [])
  = (Return (VInt 1),
     (mkWorld (with_connection (self reconnectable) (Some 5%nat)) 1,
      [Invoked_callback "select 1" BNone; Called_reconnect;
       Invoked_callback "select 1" BNone;
       Called_log_query "select 1" BNone 1])).
Proof. reflexivity. Qed.

(** A connection that stays lost: two attempts, one reconnect, the second
    failure wrapped, nothing logged. *)
Example run_retry_fails_again :
  _run good_env "select 1" BNone lost_callback (reconnectable, [])
  = (Raise (QueryException "select 1" (BList []) gone_away),
     (mkWorld (with_connection (self reconnectable) (Some 5%nat)) 1,
      [Invoked_callback "select 1" BNone; Called_reconnect;
       Invoked_callback "select 1" BNone])).
Proof. reflexivity. Qed.

(** A connection constructed without a handle reconnects before the first
    attempt. *)
Example run_reconnects_when_handle_missing :
  trace (_run good_env "select 1" BNone failing_callback) handle_missing
  = [Called_reconnect; Invoked_callback "select 1" BNone].
Proof. reflexivity. Qed.

(** The message test is case-sensitive: the error of [reconnect] itself
    says "Lost connection", which is not "Lost Connection". *)
Example no_reconnector_is_not_a_lost_connection :
  _caused_by_lost_connection no_reconnector_available = false.
Proof. reflexivity. Qed.

Example select_one_no_record :
  result (select_one (sample_env true true []) "select 1" BNone) fresh
  = Return None.
Proof. reflexivity. Qed.

Example select_one_one_record :
  result (select_one (sample_env true true [row 10]) "select 1" BNone) fresh
  = Raise (IndexError "list index out of range").
Proof. reflexivity. Qed.

Example select_one_three_records :
  result
    (select_one (sample_env true true [row 10; row 20; row 30]) "select 1" BNone)
    fresh
  = Return (Some (row 20)).
Proof. reflexivity. Qed.

(** A scope whose work succeeds: one commit, no rollback, level back at 0. *)
Example transaction_scope_commits :
  transaction good_env quiet_work (fresh, [])
  = (Return VNone, (fresh, [Called_commit; Driver_commit 1%nat])).
Proof. reflexivity. Qed.

(** A scope whose commit fails: the rollback follows, the commit's error
    leaves the scope. *)
Example transaction_scope_commit_fails :
  transaction (sample_env false true []) quiet_work (fresh, [])
  = (Raise driver_error,
     (fresh,
      [Called_commit; Driver_commit 1%nat;
       Called_rollback; Driver_rollback 1%nat])).
Proof. reflexivity. Qed.

(** Inside a transaction [set_connection] refuses and changes nothing. *)
Example set_connection_within_transaction :
  set_connection (Time := Z) (Some 2%nat) (in_transaction, [])
  = (Raise (RuntimeError "Can't swap dbapi connectionwhile within transaction."),
     (in_transaction, [])).
Proof. reflexivity. Qed.

(** * Instances and counterexamples *)

Lemma get_read_connection_routing_witness :
  get_read_connection replica_in_transaction
  = get_connection replica_in_transaction.
Proof.
  apply (proj1 (get_read_connection_routing replica_in_transaction)).
  left. cbn. lia.
Defined.

Lemma commit_rollback_fire_at_level_one_witness :
  (begin_transaction ;; begin_transaction ;;
   commit good_env ;; commit good_env) (fresh, [])
  = (Return tt,
     (fresh, [Called_commit; Called_commit; Driver_commit 1%nat])) /\
  (begin_transaction ;; begin_transaction ;;
   rollback good_env ;; rollback good_env) (fresh, [])
  = (Return tt,
     (fresh, [Called_rollback; Called_rollback; Driver_rollback 1%nat])).
Proof.
  destruct (commit_rollback_fire_at_level_one good_env fresh)
    as (_ & _ & H).
  destruct (H 1%nat eq_refl eq_refl) as (Hc & _ & Hr).
  split; [exact Hc | exact Hr].
Defined.

Lemma transaction_level_nonnegative_when_balanced_witness :
  Forall (fun l => 0 <= l)
    (levels good_env [Begin; Begin; Commit; Rollback] fresh).
Proof.
  apply (proj1 (transaction_level_nonnegative_when_balanced good_env
                  [Begin; Begin; Commit; Rollback] fresh eq_refl)).
  reflexivity.
Defined.

Lemma reconnect_without_reconnector_is_final_witness :
  result (_run good_env "select 1" BNone lost_callback) fresh
  = Raise no_reconnector_available /\
  trace (_run good_env "select 1" BNone lost_callback) fresh
  = [Invoked_callback "select 1" BNone; Called_reconnect].
Proof.
  destruct (reconnect_without_reconnector_is_final good_env "select 1" BNone
              lost_callback fresh) as (_ & _ & _ & H).
  apply (H gone_away fresh);
    [discriminate | reflexivity | reflexivity | reflexivity].
Defined.

(** C4 at level 1: [set_read_connection] installs the handle it is given
    and returns, where the specification has it fail. *)
Theorem set_read_connection_within_transaction :
  let m := set_read_connection (Time := Z) (Some 2%nat) in
  _transactions (self in_transaction) = 1 /\
  result m in_transaction = Return tt /\
  _read_connection (self (world_after m in_transaction)) = Some 2%nat /\
  _transactions (self (world_after m in_transaction)) = 1.
Proof. repeat split. Qed.

(** C1: without a reconnector a lost connection ends the run after one
    attempt, with no second execution; and a run that starts without a write
    handle has called [reconnect()] once before a failure that is not a
    lost connection. *)
Lemma retry_once_counterexample :
  ~ spec_retry_once good_env "select 1" BNone lost_callback fresh /\
  ~ spec_retry_once good_env "select 1" BNone failing_callback handle_missing.
Proof.
  split; intros H.
  - specialize (H gone_away fresh eq_refl).
    vm_compute in H. destruct H as [_ H]. discriminate H.
  - specialize
      (H syntax_error
         (mkWorld (with_connection (self handle_missing) (Some 5%nat)) 1)
         eq_refl).
    vm_compute in H. destruct H as (_ & _ & H). discriminate H.
Qed.

(** C2: a driver whose commit raises leaves the level at 1, after a lone
    [commit()] at level 1 and at the end of
    [begin(); begin(); commit(); commit()]; and at level 1 without a write
    handle [commit()] reaches no driver. *)
Lemma commit_at_level_one_counterexample :
  ~ spec_commit_fires_at_level_one (sample_env false true []) in_transaction /\
  ~ spec_nested_commits_end_at_zero (sample_env false true []) fresh /\
  ~ spec_commit_fires_at_level_one good_env
      (mkWorld (with_transactions (init None) 1) 0).
Proof.
  split; [| split]; intros H.
  - destruct (H eq_refl) as [_ E]. vm_compute in E. discriminate E.
  - destruct (H eq_refl) as [_ E]. vm_compute in E. discriminate E.
  - destruct (H eq_refl) as [[h E] _]. vm_compute in E. discriminate E.
Qed.

(** C3: work that raises leaves the connection pretending. *)
Lemma pretend_raising_work_counterexample :
  ~ spec_pretend_restores (Time := Z) failing_work fresh.
Proof.
  intros [H _]. vm_compute in H. discriminate H.
Qed.

(** C5: a statement that fails is not logged. *)
Lemma failed_statement_not_logged_counterexample :
  ~ spec_logs_exactly_once good_env "select 1" BNone failing_callback logging.
Proof.
  intros H. specialize (H eq_refl). vm_compute in H. discriminate H.
Qed.

(** C7: [commit()] at level 0. *)
Lemma commit_at_level_zero_counterexample :
  ~ spec_level_never_negative good_env [Commit] fresh.
Proof.
  intros H. specialize (H eq_refl). inversion H as [| l ls Hl _].
  vm_compute in Hl. apply Hl. reflexivity.
Qed.

(** C8: when the rollback fails too, its error replaces the work's. *)
Lemma rollback_failure_masks_error_counterexample :
  ~ spec_scope_reraises (sample_env true false []) failing_work fresh.
Proof.
  intros H. destruct (H syntax_error in_transaction eq_refl) as [_ E].
  vm_compute in E. discriminate E.
Qed.

(** * Further properties of the connection class *)

(** ** The lost-connection test *)

Lemma prefix_iff_append (s m : string) :
  String.prefix s m = true <-> exists b, m = String.append s b.
Proof.
  revert m. induction s as [| c s IH]; intros m; cbn.
  - split; [intros _; now exists m | intros _; now destruct m].
  - destruct m as [| d m]; cbn.
    + split; [discriminate | intros [b Hb]; discriminate Hb].
    + destruct (Ascii.ascii_dec c d) as [-> | Hcd].
      * rewrite IH. split; intros [b Hb]; exists b; congruence.
      * split; [discriminate | intros [b Hb]]. congruence.
Qed.

Lemma contains_iff_substring (s m : string) :
  contains s m = true <->
  exists a b, m = String.append a (String.append s b).
Proof.
  induction m as [| c m IH]; cbn [contains].
  - rewrite orb_false_r, prefix_iff_append. split.
    + intros [b Hb]. now exists EmptyString, b.
    + intros (a & b & H). destruct a; [now exists b | discriminate H].
  - rewrite orb_true_iff, prefix_iff_append, IH. split.
    + intros [[b Hb] | (a & b & Hab)].
      * now exists EmptyString, b.
      * exists (String c a), b. cbn. now rewrite Hab.
    + intros (a & b & H). destruct a as [| c' a]; cbn in H.
      * left. now exists b.
      * right. exists a, b. congruence.
Qed.

(** X1.  [_caused_by_lost_connection] answers true exactly when the
    message holds one of the three fixed texts as a contiguous,
    case-sensitive substring. *)
Theorem caused_by_lost_connection_iff_substring (e : Exn) :
  _caused_by_lost_connection e = true <->
  exists s a b,
    In s ["server has gone away"; "no connection to the server";
          "Lost Connection"] /\
    message e = String.append a (String.append s b).
Proof.
  unfold _caused_by_lost_connection, lost_connection_messages.
  rewrite existsb_exists. split.
  - intros (s & Hin & Hc). apply contains_iff_substring in Hc as (a & b & H).
    now exists s, a, b.
  - intros (s & a & b & Hin & H). exists s. split; [exact Hin |].
    apply contains_iff_substring. now exists a, b.
Qed.

Lemma caused_by_lost_connection_iff_substring_witness :
  _caused_by_lost_connection gone_away = true.
Proof.
  apply caused_by_lost_connection_iff_substring.
  exists "server has gone away", "MySQL ", "".
  split; [cbn; auto | reflexivity].
Defined.

Section Transactions.

Context {Outside Callable Time : Type}.
Variable env : @Environment Outside Callable Time.

(** ** Transaction calls on any trace *)

Lemma begin_transaction_run (w : @World Outside Callable) (t : @Trace Time) :
  begin_transaction (w, t)
  = (Return tt,
     (mkWorld (with_transactions (self w) (_transactions (self w) + 1))
        (outside w), t)).
Proof. reflexivity. Qed.

Lemma commit_run (w : World) (t : Trace) :
  commit env (w, t)
  = let lowered :=
      mkWorld (with_transactions (self w) (_transactions (self w) - 1)) in
    if _transactions (self w) =? 1 then
      match _connection (self w) with
      | Some h =>
          match dbapi_commit env h (outside w) with
          | (Return _, o) =>
              (Return tt, (lowered o, t ++ [Called_commit; Driver_commit h]))
          | (Raise e, o) =>
              (Raise e,
               (mkWorld (self w) o, t ++ [Called_commit; Driver_commit h]))
          end
      | None =>
          (Raise (AttributeError "'NoneType' object has no attribute 'commit'"),
           (w, t ++ [Called_commit]))
      end
    else (Return tt, (lowered (outside w), t ++ [Called_commit])).
Proof.
  destruct w as [c o]. unfold commit, connection_commit. st_unfold.
  destruct (_transactions c =? 1); [| reflexivity].
  destruct (_connection c) as [h |]; [| reflexivity]. st_unfold.
  rewrite <- app_assoc. cbn.
  destruct (dbapi_commit env h o) as [[u | e] o']; reflexivity.
Qed.

Lemma rollback_run (w : World) (t : Trace) :
  rollback env (w, t)
  = if _transactions (self w) =? 1 then
      match _connection (self w) with
      | Some h =>
          let (r, o) := dbapi_rollback env h (outside w) in
          (r,
           (mkWorld (with_transactions (self w) 0) o,
            t ++ [Called_rollback; Driver_rollback h]))
      | None =>
          (Raise
             (AttributeError "'NoneType' object has no attribute 'rollback'"),
           (mkWorld (with_transactions (self w) 0) (outside w),
            t ++ [Called_rollback]))
      end
    else
      (Return tt,
       (mkWorld (with_transactions (self w) (_transactions (self w) - 1))
          (outside w),
        t ++ [Called_rollback])).
Proof.
  destruct w as [c o]. unfold rollback, connection_rollback. st_unfold.
  destruct (_transactions c =? 1); [| reflexivity]. st_unfold.
  destruct (_connection c) as [h |]; [| reflexivity]. st_unfold.
  rewrite <- app_assoc. cbn.
  destruct (dbapi_rollback env h o) as [[u | e] o']; reflexivity.
Qed.

Lemma perform_changes_only_the_level (c : Call) (w : World) :
  with_transactions (self (world_after (perform env c) w))
    (_transactions (self w))
  = self w.
Proof.
  unfold world_after. destruct c; cbn [perform].
  - rewrite begin_transaction_run. now destruct w as [[] o].
  - rewrite commit_run. cbn zeta.
    destruct (_transactions (self w) =? 1).
    + destruct (_connection (self w)) as [h |]; [| now destruct w as [[] o]].
      destruct (dbapi_commit env h (outside w)) as [[u | e] o'];
        now destruct w as [[] o].
    + now destruct w as [[] o].
  - rewrite rollback_run.
    destruct (_transactions (self w) =? 1).
    + destruct (_connection (self w)) as [h |]; [| now destruct w as [[] o]].
      destruct (dbapi_rollback env h (outside w)) as [[u | e] o'];
        now destruct w as [[] o].
    + now destruct w as [[] o].
Qed.

Lemma with_transactions_twice (c : @Connection Callable) (a b : Z) :
  with_transactions (with_transactions c a) b = with_transactions c b.
Proof. reflexivity. Qed.

(** X2.  Whatever sequence of [begin_transaction()], [commit()] and
    [rollback()] is issued, and whatever the driver answers, nothing of
    the connection object changes but the transaction level: handles,
    cursor, reconnector and the two flags are as before. *)
Theorem transaction_calls_change_only_the_level
    (calls : list Call) (w : World) :
  with_transactions (self (after_calls env calls w)) (_transactions (self w))
  = self w.
Proof.
  revert w. induction calls as [| c calls IH]; intros w; cbn [after_calls].
  - now destruct w as [[] o].
  - rewrite <- (perform_changes_only_the_level c w) at 2.
    rewrite <- (IH (world_after (perform env c) w)).
    now rewrite with_transactions_twice.
Qed.

(** ** Nesting to any depth *)

Lemma times_begin_transaction_run (n : nat) :
  forall (w : @World Outside Callable) (t : @Trace Time),
    times n begin_transaction (w, t)
    = (Return tt,
       (mkWorld
          (with_transactions (self w) (_transactions (self w) + Z.of_nat n))
          (outside w), t)).
Proof.
  induction n as [| n IH]; intros w t.
  - cbn [times]. unfold ret. rewrite Z.add_0_r. now destruct w as [[] o].
  - cbn [times]. unfold bind. rewrite begin_transaction_run, IH.
    cbn [self outside]. rewrite with_transactions_twice.
    cbn [_transactions with_transactions].
    replace (_transactions (self w) + 1 + Z.of_nat n)
      with (_transactions (self w) + Z.of_nat (S n)) by lia.
    reflexivity.
Qed.

Lemma times_commit_run (h : Handle) (n : nat) :
  forall (w : World) (t : Trace) (u : unit) (o : Outside),
    _transactions (self w) = Z.of_nat (S n) ->
    _connection (self w) = Some h ->
    dbapi_commit env h (outside w) = (Return u, o) ->
    times (S n) (commit env) (w, t)
    = (Return tt,
       (mkWorld (with_transactions (self w) 0) o,
        t ++ repeat Called_commit (S n) ++ [Driver_commit h])).
Proof.
  induction n as [| n IH]; intros w t u o Hl Hc Hd.
  - cbn [times]. unfold bind, ret. rewrite commit_run. cbn zeta.
    rewrite Hl, Hc, Hd. reflexivity.
  - change (times (S (S n)) (commit env))
      with (bind (commit env) (fun _ => times (S n) (commit env))).
    unfold bind at 1. rewrite commit_run. cbn zeta.
    replace (_transactions (self w) =? 1) with false
      by (symmetry; apply Z.eqb_neq; lia).
    rewrite (IH _ _ u o); cbn [self outside];
      [| rewrite Hl; cbn [_transactions with_transactions]; lia
       | now destruct w as [[] o']
       | exact Hd].
    rewrite with_transactions_twice, <- app_assoc. reflexivity.
Qed.

Lemma times_rollback_run (h : Handle) (n : nat) :
  forall (w : World) (t : Trace),
    _transactions (self w) = Z.of_nat (S n) ->
    _connection (self w) = Some h ->
    times (S n) (rollback env) (w, t)
    = (fst (dbapi_rollback env h (outside w)),
       (mkWorld (with_transactions (self w) 0)
          (snd (dbapi_rollback env h (outside w))),
        t ++ repeat Called_rollback (S n) ++ [Driver_rollback h])).
Proof.
  induction n as [| n IH]; intros w t Hl Hc.
  - cbn [times]. unfold bind, ret. rewrite rollback_run.
    rewrite Hl, Hc. cbn.
    destruct (dbapi_rollback env h (outside w)) as [[[] | e] o]; reflexivity.
  - change (times (S (S n)) (rollback env))
      with (bind (rollback env) (fun _ => times (S n) (rollback env))).
    unfold bind at 1. rewrite rollback_run.
    replace (_transactions (self w) =? 1) with false
      by (symmetry; apply Z.eqb_neq; lia).
    rewrite IH; cbn [self outside];
      [| rewrite Hl; cbn [_transactions with_transactions]; lia
       | now destruct w as [[] o']].
    rewrite with_transactions_twice, <- app_assoc. reflexivity.
Qed.

(** X3.  From level 0 on a connection with a write handle, [n + 1]
    [begin_transaction()] calls followed by as many [commit()] calls issue
    a single physical commit, in the last [commit()], and end at level 0
    with the connection as it was (the driver's commit returning); followed
    instead by as many [rollback()] calls they issue a single physical
    rollback, in the last [rollback()], and end at level 0 whatever the
    driver answers. *)
Theorem nesting_fires_once_at_any_depth
    (n : nat) (w : World) (h : Handle) :
  _transactions (self w) = 0 ->
  _connection (self w) = Some h ->
  (forall u o,
     dbapi_commit env h (outside w) = (Return u, o) ->
     (times (S n) begin_transaction ;; times (S n) (commit env)) (w, [])
     = (Return tt,
        (mkWorld (self w) o,
         repeat Called_commit (S n) ++ [Driver_commit h]))) /\
  (times (S n) begin_transaction ;; times (S n) (rollback env)) (w, [])
  = (fst (dbapi_rollback env h (outside w)),
     (mkWorld (self w) (snd (dbapi_rollback env h (outside w))),
      repeat Called_rollback (S n) ++ [Driver_rollback h])).
Proof.
  intros Hl Hc.
  assert (Hself : with_transactions (self w) 0 = self w)
    by (rewrite <- Hl; now destruct w as [[] o']).
  split.
  - intros u o Hd. unfold bind at 1. rewrite times_begin_transaction_run.
    rewrite (times_commit_run h n _ _ u o); cbn [self outside];
      [| cbn [_transactions with_transactions]; lia
       | now destruct w as [[] o']
       | exact Hd].
    rewrite with_transactions_twice, Hself. reflexivity.
  - unfold bind at 1. rewrite times_begin_transaction_run.
    rewrite (times_rollback_run h n); cbn [self outside];
      [| cbn [_transactions with_transactions]; lia
       | now destruct w as [[] o']].
    rewrite with_transactions_twice, Hself. reflexivity.
Qed.

(** ** Scopes *)

#[local] Arguments commit : simpl never.
#[local] Arguments rollback : simpl never.

Lemma transaction_is_transaction_around {A : Type}
    (work : @Code Outside Callable A) :
  transaction env work = transaction_around env (lift work).
Proof. reflexivity. Qed.

(** X4.  A [transaction()] scope ends exactly one level below the level
    its work left behind, on every exit path: work returning or raising,
    commit or rollback failing, write handle present or not.  A scope
    whose work leaves the level where it found it therefore ends at the
    level it was entered at. *)
Theorem transaction_scope_closes_one_level {A : Type}
    (work : @Code Outside Callable A) (w : World) :
  let left_by_work :=
    _transactions (self (snd (work (world_after (perform env Begin) w)))) in
  let at_exit :=
    _transactions (self (world_after (transaction env work) w)) in
  at_exit = left_by_work - 1 /\
  (left_by_work = _transactions (self w) + 1 ->
   at_exit = _transactions (self w)).
Proof.
  cbn zeta.
  assert (H :
    _transactions (self (world_after (transaction env work) w))
    = _transactions
        (self (snd (work (world_after (perform env Begin) w)))) - 1);
    [| split; [exact H | intros E; rewrite H, E; lia]].
  unfold world_after, transaction, perform. unfold bind at 1.
  rewrite begin_transaction_run. cbn [fst snd].
  unfold bind, try_except, lift, raise, ret. cbn [fst snd].
  destruct (work _) as [[a | e] w2]; cbn [fst snd].
  - rewrite commit_run. cbn zeta.
    destruct (Z.eqb_spec (_transactions (self w2)) 1) as [E | E].
    + destruct (_connection (self w2)) as [h |] eqn:Hc.
      * destruct (dbapi_commit env h (outside w2)) as [[u | e] o]; cbn.
        -- lia.
        -- rewrite rollback_run. cbn. rewrite E, Hc. cbn.
           destruct (dbapi_rollback env h o) as [[u | e'] o']; cbn; lia.
      * rewrite rollback_run. rewrite E, Hc. cbn. lia.
    + reflexivity.
  - rewrite rollback_run.
    destruct (Z.eqb_spec (_transactions (self w2)) 1) as [E | E].
    + destruct (_connection (self w2)) as [h |].
      * destruct (dbapi_rollback env h (outside w2)) as [[u | e'] o']; cbn; lia.
      * cbn. lia.
    + reflexivity.
Qed.

(** X5.  Two [transaction()] scopes, one inside the other, entered at
    level 0 around work that leaves the connection object alone: when the
    work returns, both scopes call [commit()] and the driver commits once,
    in the outer one; when the work raises, both scopes call [rollback()],
    the driver rolls back once, in the outer one, and nothing is
    committed. *)
Theorem nested_scopes_fire_once {A : Type}
    (work : @Code Outside Callable A) (w : World) (h : Handle) :
  let entered :=
    mkWorld (with_transactions (self w) 2) (outside w) in
  let scopes := transaction_around env (transaction_around env (lift work)) in
  _transactions (self w) = 0 ->
  _connection (self w) = Some h ->
  (forall a o2 u o3,
     work entered = (Return a, mkWorld (self entered) o2) ->
     dbapi_commit env h o2 = (Return u, o3) ->
     scopes (w, [])
     = (Return a,
        (mkWorld (self w) o3,
         [Called_commit; Called_commit; Driver_commit h]))) /\
  (forall e o2,
     work entered = (Raise e, mkWorld (self entered) o2) ->
     scopes (w, [])
     = (match fst (dbapi_rollback env h o2) with
        | Return _ => Raise e
        | Raise e' => Raise e'
        end,
        (mkWorld (self w) (snd (dbapi_rollback env h o2)),
         [Called_rollback; Called_rollback; Driver_rollback h]))).
Proof.
  destruct w as [[cn cu rc re tr pr lq] o]. cbn [self outside _transactions _connection].
  cbn zeta. intros -> ->. split.
  - intros a o2 u o3 Hw Hd.
    unfold transaction_around, begin_transaction. st_unfold.
    unfold with_transactions in *. cbn in *.
    rewrite Hw. cbn. rewrite commit_run. cbn. rewrite commit_run. cbn.
    rewrite Hd. reflexivity.
  - intros e o2 Hw.
    unfold transaction_around, begin_transaction. st_unfold.
    unfold with_transactions in *. cbn in *.
    rewrite Hw. cbn. rewrite rollback_run. cbn. rewrite rollback_run. cbn.
    destruct (dbapi_rollback env h o2) as [[u | e'] o3]; reflexivity.
Qed.

End Transactions.

Section Pipeline.

Context {Outside Callable Time : Type}.
Variable env : @Environment Outside Callable Time.
Variable drv : @Writes Outside.

#[local] Arguments reconnect : simpl never.
#[local] Arguments _reconnect_if_missing_connection : simpl never.
#[local] Arguments _run_query_callback : simpl never.
#[local] Arguments _caused_by_lost_connection : simpl never.

(** Pairs of a world and a trace, typed the way the step equations of
    the pipeline state them. *)
Ltac as_trace :=
  repeat
    match goal with
    | |- context [@pair ?W (list (@Event ?T)) ?w ?t] =>
        progress
          change (@pair W (list (@Event T)) w t)
            with (@pair W (@Trace T) w t)
    end.

(** Case analysis on the [reconnect()] call made from world [w0]. *)
Tactic Notation "destruct_reconnect" constr(w0) ident(H)
    "as" simple_intropattern(p) :=
  match goal with
  | |- context [reconnect ?en ?s] =>
      lazymatch s with
      | (w0, _) => destruct (reconnect en s) as p eqn:H
      end
  end.

(** ** Errors leaving the pipeline *)

Lemma prepare_bindings_not_None (bindings : Bindings) :
  prepare_bindings bindings <> BNone.
Proof. destruct bindings; discriminate. Qed.

Lemma reconnect_raises_on_any_trace
    (w : World) (t : Trace) (e : Exn) (s : World * Trace) :
  reconnect env (w, t) = (Raise e, s) ->
  result (reconnect env) w = Raise e.
Proof.
  unfold result. as_trace. rewrite !reconnect_run.
  destruct (_reconnector (self w)) as [[v | f] |]; cbn;
    try (now intros [= <- _]).
  destruct (call env f w) as [[v | e'] w']; cbn; now intros [= <- _].
Qed.

(** X6.  An error that leaves [_run] comes from one of four places of
    that run and no other: the [reconnect()] of the guard, called on the
    starting world because the write handle is missing; the first attempt,
    whose error was no lost connection and leaves wrapped in a
    [QueryException] with the statement and the prepared bindings; the
    [reconnect()] called on the world the lost first attempt left; or the
    second attempt, on the world that [reconnect()] left, whose error
    leaves wrapped in the same way.  The bindings of the wrapper are never
    [None], and an error of the callback never leaves unwrapped. *)
Theorem run_raises_wrapped_or_reconnect_error {A : Type}
    (query : Query) (bindings : Bindings)
    (callback : @Callback Outside Callable A) (w : World) (e : Exn) :
  let guard := _reconnect_if_missing_connection env in
  let wrapped := QueryException query (prepare_bindings bindings) in
  result (_run env query bindings callback) w = Raise e ->
  prepare_bindings bindings <> BNone /\
  ((_connection (self w) = None /\ result (reconnect env) w = Raise e) \/
   (result guard w = Return tt /\
    exists cause w2,
      callback query bindings (world_after guard w) = (Raise cause, w2) /\
      if _caused_by_lost_connection cause then
        result (reconnect env) w2 = Raise e \/
        (exists r cause2,
           result (reconnect env) w2 = Return r /\
           fst (callback query bindings (world_after (reconnect env) w2))
           = Raise cause2 /\
           e = wrapped cause2)
      else e = wrapped cause)).
Proof.
  cbn zeta. intros Hrun. split; [apply prepare_bindings_not_None |].
  revert Hrun.
  unfold result, world_after. rewrite run_run. cbn zeta. as_trace.
  rewrite !reconnect_if_missing_connection_run.
  assert (Htail :
    forall (w1 : World) (t1 : Trace),
      fst
        (match callback query bindings w1 with
         | (Return a, w2) =>
             (Return a,
              (w2,
               (t1 ++ [Invoked_callback query bindings]) ++
               [Called_log_query query bindings
                  (elapsed_ms env (time_time env (outside w1))
                     (time_time env (outside w2)))]))
         | (Raise e0, w2) =>
             if _caused_by_lost_connection e0 then
               match
                 reconnect env (w2, t1 ++ [Invoked_callback query bindings])
               with
               | (Raise e', s3) => (Raise e', s3)
               | (Return _, (w3, t3)) =>
                   match callback query bindings w3 with
                   | (Return a, w4) =>
                       (Return a,
                        (w4,
                         (t3 ++ [Invoked_callback query bindings]) ++
                         [Called_log_query query bindings
                            (elapsed_ms env (time_time env (outside w1))
                               (time_time env (outside w4)))]))
                   | (Raise e2, w4) =>
                       (Raise
                          (QueryException query (prepare_bindings bindings)
                             e2),
                        (w4, t3 ++ [Invoked_callback query bindings]))
                   end
               end
             else
               (Raise (QueryException query (prepare_bindings bindings) e0),
                (w2, t1 ++ [Invoked_callback query bindings]))
         end) = Raise e ->
      exists cause w2,
        callback query bindings w1 = (Raise cause, w2) /\
        if _caused_by_lost_connection cause then
          fst (reconnect env (w2, [])) = Raise e \/
          (exists r cause2,
             fst (reconnect env (w2, [])) = Return r /\
             fst (callback query bindings
                    (fst (snd (reconnect env (w2, [])))))
             = Raise cause2 /\
             e = QueryException query (prepare_bindings bindings) cause2)
        else e = QueryException query (prepare_bindings bindings) cause).
  { intros w1 t1.
    destruct (callback query bindings w1) as [[a | e0] w2] eqn:H1; cbn;
      [discriminate |].
    intros Hrun. exists e0, w2. split; [reflexivity |].
    as_trace. rewrite !reconnect_run in *.
    destruct (_caused_by_lost_connection e0); cbn in Hrun;
      [| now inversion Hrun].
    destruct (_reconnector (self w2)) as [[v | f] |]; cbn in *;
      try (left; now inversion Hrun).
    destruct (call env f w2) as [[r | e'] w3]; cbn in *;
      [| left; now inversion Hrun].
    right. exists r.
    destruct (callback query bindings w3) as [[a | e2] w4]; cbn in *;
      [discriminate Hrun |].
    exists e2. repeat split. now inversion Hrun. }
  destruct (_connection (self w)) as [h |] eqn:Hc; cbn [is_None].
  - intros Hrun. right. split; [reflexivity |].
    cbn [fst snd]. apply (Htail w []). exact Hrun.
  - as_trace. rewrite !reconnect_run.
    destruct (_reconnector (self w)) as [[v | f] |]; cbn;
      try (intros [= <-]; left; split; reflexivity).
    destruct (call env f w) as [[r | e0] w1]; cbn;
      [| intros [= <-]; left; split; reflexivity].
    intros Hrun. right. split; [reflexivity |].
    apply (Htail w1 [Called_reconnect]). exact Hrun.
Qed.

(** ** Reads and writes on a healthy driver *)

Lemma run_first_attempt_returns {A : Type}
    (query : Query) (bindings : Bindings)
    (callback : @Callback Outside Callable A)
    (w w2 : World) (t : Trace) (h : Handle) (a : A) :
  _connection (self w) = Some h ->
  callback query bindings w = (Return a, w2) ->
  _run env query bindings callback (w, t)
  = (Return a,
     (w2,
      (t ++ [Invoked_callback query bindings]) ++
      [Called_log_query query bindings
         (elapsed_ms env (time_time env (outside w))
            (time_time env (outside w2)))])).
Proof.
  intros Hc Hcb. rewrite run_run. cbn zeta.
  rewrite reconnect_if_missing_connection_run, Hc. cbn. now rewrite Hcb.
Qed.

Lemma select_run_ok
    (query : Query) (bindings : Bindings) (use_read_connection : bool)
    (w : World) (hw h : Handle) (k : Cursor) (v : Value) (rows : list Row)
    (o1 o2 o3 : Outside) :
  _pretending (self w) = false ->
  _connection (self w) = Some hw ->
  (if use_read_connection then get_read_connection (self w)
   else get_connection (self w)) = Some h ->
  dbapi_cursor env h (outside w) = (Return k, o1) ->
  cursor_execute env k query (prepare_bindings bindings) o1 = (Return v, o2) ->
  cursor_fetchall env k o2 = (Return rows, o3) ->
  select env query bindings use_read_connection (w, [])
  = (Return rows,
     (mkWorld (with_cursor (self w) (Some k)) o3,
      [Invoked_callback query bindings;
       Called_log_query query bindings
         (elapsed_ms env (time_time env (outside w)) (time_time env o3))])).
Proof.
  intros Hp Hc Hh Hk Hx Hf. unfold select.
  rewrite (run_first_attempt_returns _ _ _ w
             (mkWorld (with_cursor (self w) (Some k)) o3) [] hw rows Hc);
    [reflexivity |].
  unfold _get_cursor_for_select, connection_cursor. st_unfold.
  rewrite Hp, Hh. st_unfold. rewrite Hk. cbn. rewrite Hx. cbn.
  rewrite Hf. reflexivity.
Qed.

(** X7.  On a connection that is not pretending and has its write handle,
    [select] opens its cursor on the handle the router gives
    ([get_read_connection()] by default, [get_connection()] when
    [use_read_connection] is false), executes the statement with the
    prepared bindings, returns what [fetchall()] returns, keeps the cursor
    in [_cursor], makes one attempt and logs once. *)
Theorem select_reads_from_the_routed_handle
    (query : Query) (bindings : Bindings) (use_read_connection : bool)
    (w : World) (hw h : Handle) (k : Cursor) (v : Value) (rows : list Row)
    (o1 o2 o3 : Outside) :
  _pretending (self w) = false ->
  _connection (self w) = Some hw ->
  (if use_read_connection then get_read_connection (self w)
   else get_connection (self w)) = Some h ->
  dbapi_cursor env h (outside w) = (Return k, o1) ->
  cursor_execute env k query (prepare_bindings bindings) o1 = (Return v, o2) ->
  cursor_fetchall env k o2 = (Return rows, o3) ->
  select env query bindings use_read_connection (w, [])
  = (Return rows,
     (mkWorld (with_cursor (self w) (Some k)) o3,
      [Invoked_callback query bindings;
       Called_log_query query bindings
         (elapsed_ms env (time_time env (outside w)) (time_time env o3))])).
Proof.
  intros Hp Hc Hh Hk Hx Hf. unfold select.
  (* the guard finds the write handle and the first attempt returns *)
  rewrite (run_first_attempt_returns _ _ _ w
             (mkWorld (with_cursor (self w) (Some k)) o3) [] hw rows Hc);
    [reflexivity |].
  (* the callback: not pretending, cursor on the routed handle *)
  unfold _get_cursor_for_select, connection_cursor. st_unfold.
  rewrite Hp, Hh. st_unfold.
  rewrite Hk. cbn.
  rewrite Hx. cbn.
  rewrite Hf. reflexivity.
Qed.

(** X8.  [select_from_write_connection] does not ask for the write
    connection: outside a transaction, on a connection with a read handle,
    it opens its cursor on the read handle, and what it returns is what
    that handle's cursor fetches.  Absent bindings go to the driver as an
    empty dict. *)
Theorem select_from_write_connection_reads_the_read_handle
    (query : Query) (bindings : Bindings)
    (w : World) (hw hr : Handle) (k : Cursor) (v : Value) (rows : list Row)
    (o1 o2 o3 : Outside) :
  let sent :=
    match bindings with
    | BNone => BDict []
    | _ => bindings
    end in
  _pretending (self w) = false ->
  _transactions (self w) < 1 ->
  _connection (self w) = Some hw ->
  _read_connection (self w) = Some hr ->
  dbapi_cursor env hr (outside w) = (Return k, o1) ->
  cursor_execute env k query sent o1 = (Return v, o2) ->
  cursor_fetchall env k o2 = (Return rows, o3) ->
  select_from_write_connection env query bindings (w, [])
  = (Return rows,
     (mkWorld (with_cursor (self w) (Some k)) o3,
      [Invoked_callback query sent;
       Called_log_query query sent
         (elapsed_ms env (time_time env (outside w)) (time_time env o3))])).
Proof.
  cbn zeta. intros Hp Hl Hc Hr Hk Hx Hf. unfold select_from_write_connection.
  apply (select_run_ok _ _ true w hw hr k v rows o1 o2 o3); try assumption.
  - unfold get_read_connection. rewrite Hr.
    destruct (Z.geb_spec (_transactions (self w)) 1); [lia | reflexivity].
  - now destruct bindings.
Qed.

(** X9.  On a connection that is not pretending and has its write handle,
    the writing statements use the write handle alone, whatever read
    handle is configured: [insert] executes on a cursor it keeps in
    [_cursor] and returns what [execute()] returns; [update] and [delete]
    execute on a cursor they do not keep and return its [rowcount];
    [unprepared] calls [execute()] on the connection itself, without
    bindings, and returns the truth value of what it gets.  Each makes one
    attempt and logs once. *)
Theorem writes_use_the_write_handle
    (query : Query) (bindings : Bindings) (w : World) (h : Handle) :
  let logged (b : Bindings) (o : Outside) :=
    [Invoked_callback query b;
     Called_log_query query b
       (elapsed_ms env (time_time env (outside w)) (time_time env o))] in
  _pretending (self w) = false ->
  _connection (self w) = Some h ->
  (forall k v o1 o2,
     dbapi_cursor env h (outside w) = (Return k, o1) ->
     cursor_execute env k query (prepare_bindings bindings) o1
     = (Return v, o2) ->
     insert env query bindings (w, [])
     = (Return v,
        (mkWorld (with_cursor (self w) (Some k)) o2, logged bindings o2)) /\
     update env drv query bindings (w, [])
     = (Return (VInt (cursor_rowcount drv k o2)),
        (mkWorld (self w) o2, logged bindings o2)) /\
     delete env drv query bindings (w, [])
     = update env drv query bindings (w, [])) /\
  (forall v o1,
     connection_execute drv h query (outside w) = (Return v, o1) ->
     unprepared env drv query (w, [])
     = (Return (VBool (truthy v)),
        (mkWorld (self w) o1, logged (BDict []) o1))).
Proof.
  cbn zeta. intros Hp Hc. split.
  - intros k v o1 o2 Hk Hx. split; [| split; [| reflexivity]].
    + unfold insert, statement.
      rewrite (run_first_attempt_returns _ _ _ w
                 (mkWorld (with_cursor (self w) (Some k)) o2) [] h v Hc);
        [reflexivity |].
      unfold _get_cursor, connection_cursor, get_connection. st_unfold.
      rewrite Hp, Hc. st_unfold. rewrite Hk. cbn. rewrite Hx. reflexivity.
    + unfold update, affecting_statement.
      rewrite (run_first_attempt_returns _ _ _ w (mkWorld (self w) o2) [] h
                 (VInt (cursor_rowcount drv k o2)) Hc);
        [reflexivity |].
      unfold connection_cursor, get_connection. st_unfold.
      rewrite Hp, Hc. st_unfold. rewrite Hk. cbn. rewrite Hx. reflexivity.
  - intros v o1 Hx. unfold unprepared.
    rewrite (run_first_attempt_returns _ _ _ w (mkWorld (self w) o1) [] h
               (VBool (truthy v)) Hc);
      [reflexivity |].
    unfold connection_execute_on, get_connection. st_unfold.
    rewrite Hp, Hc. st_unfold. rewrite Hx. reflexivity.
Qed.

(** ** Pretend mode and the four kinds of statement *)

Lemma pretending_runs
    (query : Query) (bindings : Bindings) (use_read_connection : bool)
    (w : World) (h : Handle) :
  let logged (b : Bindings) :=
    [Invoked_callback query b;
     Called_log_query query b
       (elapsed_ms env (time_time env (outside w))
          (time_time env (outside w)))] in
  _pretending (self w) = true ->
  _connection (self w) = Some h ->
  select env query bindings use_read_connection (w, [])
  = (Return [], (w, logged bindings)) /\
  insert env query bindings (w, [])
  = (Return (VBool true), (w, logged bindings)) /\
  update env drv query bindings (w, [])
  = (Return (VBool true), (w, logged bindings)) /\
  delete env drv query bindings (w, [])
  = (Return (VBool true), (w, logged bindings)) /\
  unprepared env drv query (w, [])
  = (Return (VBool true), (w, logged (BDict []))).
Proof.
  cbn zeta. intros Hp Hc.
  repeat split;
    unfold select, insert, statement, update, delete, affecting_statement,
      unprepared;
    (erewrite run_first_attempt_returns; [reflexivity | exact Hc |]);
    st_unfold; now rewrite Hp.
Qed.

(** X10.  While the connection is pretending and has its write handle,
    no kind of statement reaches the driver: [select] returns no record,
    [insert], [update], [delete] and [unprepared] return [True], the
    connection object and the world outside are exactly as before, and
    the statement is still counted as one attempt and logged once. *)
Theorem pretending_statements_reach_no_handle
    (query : Query) (bindings : Bindings) (use_read_connection : bool)
    (w : World) (h : Handle) :
  let logged (b : Bindings) :=
    [Invoked_callback query b;
     Called_log_query query b
       (elapsed_ms env (time_time env (outside w))
          (time_time env (outside w)))] in
  _pretending (self w) = true ->
  _connection (self w) = Some h ->
  select env query bindings use_read_connection (w, [])
  = (Return [], (w, logged bindings)) /\
  insert env query bindings (w, [])
  = (Return (VBool true), (w, logged bindings)) /\
  update env drv query bindings (w, [])
  = (Return (VBool true), (w, logged bindings)) /\
  delete env drv query bindings (w, [])
  = (Return (VBool true), (w, logged bindings)) /\
  unprepared env drv query (w, [])
  = (Return (VBool true), (w, logged (BDict []))).
Proof.
  cbn zeta. intros Hp Hc.
  split; [| split; [| split; [| split]]].
  - unfold select.
    erewrite run_first_attempt_returns; [reflexivity | exact Hc |].
    st_unfold. now rewrite Hp.
  - unfold insert, statement.
    erewrite run_first_attempt_returns; [reflexivity | exact Hc |].
    st_unfold. now rewrite Hp.
  - unfold update, affecting_statement.
    erewrite run_first_attempt_returns; [reflexivity | exact Hc |].
    st_unfold. now rewrite Hp.
  - unfold delete, affecting_statement.
    erewrite run_first_attempt_returns; [reflexivity | exact Hc |].
    st_unfold. now rewrite Hp.
  - unfold unprepared.
    erewrite run_first_attempt_returns; [reflexivity | exact Hc |].
    st_unfold. now rewrite Hp.
Qed.

Lemma pretend_around_quiet_call {A : Type}
    (m : @M Outside Callable Time A) (w : World) (a : A) (t : Trace) :
  let during :=
    mkWorld (with_pretending (with_logging_queries (self w) true) true)
      (outside w) in
  m (during, []) = (Return a, (during, t)) ->
  pretend (Time := Time) (as_code m) (w, [])
  = (Return tt, (mkWorld (with_pretending (self w) false) (outside w), [])).
Proof.
  cbn zeta. intros Hm. unfold pretend, enable_query_log, as_code. st_unfold.
  rewrite Hm. cbn. now destruct w as [[] o].
Qed.

(** X11.  A statement issued from inside [pretend] on a connection with
    its write handle leaves no mark: whichever of [select], [insert],
    [update], [delete] or [unprepared] the work calls, after [pretend]
    the world outside, the handles and the cursor are untouched, the
    pretend flag is off and the logging flag is what it was. *)
Theorem pretend_around_a_statement_changes_nothing
    (query : Query) (bindings : Bindings) (use_read_connection : bool)
    (w : World) (h : Handle) :
  let untouched :=
    (Return tt,
     (mkWorld (with_pretending (self w) false) (outside w), @nil Event)) in
  _connection (self w) = Some h ->
  pretend (Time := Time) (as_code (select env query bindings use_read_connection)) (w, [])
  = untouched /\
  pretend (Time := Time) (as_code (insert env query bindings)) (w, []) = untouched /\
  pretend (Time := Time) (as_code (update env drv query bindings)) (w, []) = untouched /\
  pretend (Time := Time) (as_code (delete env drv query bindings)) (w, []) = untouched /\
  pretend (Time := Time) (as_code (unprepared env drv query)) (w, []) = untouched.
Proof.
  cbn zeta. intros Hc.
  destruct (pretending_runs query bindings use_read_connection
              (mkWorld
                 (with_pretending (with_logging_queries (self w) true) true)
                 (outside w)) h eq_refl Hc)
    as (Hs & Hi & Hu & Hd & Hn).
  repeat split; eapply pretend_around_quiet_call; eassumption.
Qed.

(** X12.  [pretend] inside [pretend] ends the pretending of both: once
    the inner call has returned, what is left of the outer work runs with
    the pretend flag off (and query logging on), so its statements reach
    the driver. *)
Theorem pretend_does_not_nest {A B : Type}
    (inner : @Code Outside Callable A) (rest : @Code Outside Callable B)
    (w w2 : World) (a : A) :
  let during :=
    mkWorld (with_pretending (with_logging_queries (self w) true) true)
      (outside w) in
  let resumed :=
    mkWorld (with_logging_queries (with_pretending (self w2) false) true)
      (outside w2) in
  inner during = (Return a, w2) ->
  _pretending (self resumed) = false /\
  result
    (pretend (Time := Time)
       (as_code (pretend (Time := Time) inner) ;; rest)) w
  = match fst (rest resumed) with
    | Return _ => Return tt
    | Raise e => Raise e
    end.
Proof.
  destruct w as [[cn cu rc re tr pr lq] o].
  cbn zeta. intros Hi. split; [reflexivity |].
  unfold result, pretend, enable_query_log, as_code. st_unfold.
  unfold with_pretending, with_logging_queries in *. cbn in *.
  rewrite Hi. cbn.
  destruct (rest _) as [[b | e] w3]; reflexivity.
Qed.

(** ** Disconnecting *)

(** X13.  [disconnect()] inside a transaction raises and clears nothing,
    not even the read handle.  Outside a transaction it clears both
    handles, and the next statement starts by calling [reconnect()];
    without a reconnector that statement ends there, its strategy never
    executed. *)
Theorem disconnect_then_run_reconnects {A : Type}
    (query : Query) (bindings : Bindings)
    (callback : @Callback Outside Callable A) (w : World) :
  let cleared :=
    mkWorld (with_read_connection (with_connection (self w) None) None)
      (outside w) in
  (1 <= _transactions (self w) ->
   disconnect (Time := Time) (w, [])
   = (Raise
        (RuntimeError "Can't swap dbapi connectionwhile within transaction."),
      (w, []))) /\
  (_transactions (self w) < 1 ->
   disconnect (Time := Time) (w, []) = (Return tt, (cleared, [])) /\
   (exists t,
      trace (_run env query bindings callback) cleared = Called_reconnect :: t) /\
   (has_reconnector (self w) = false ->
    _run env query bindings callback (cleared, [])
    = (Raise no_reconnector_available, (cleared, [Called_reconnect])))).
Proof.
  cbn zeta. split.
  - intros Hl. unfold disconnect, set_connection. st_unfold.
    destruct (Z.geb_spec (_transactions (self w)) 1); [| lia].
    now destruct w.
  - intros Hl. split; [| split].
    + unfold disconnect, set_connection, set_read_connection. st_unfold.
      destruct (Z.geb_spec (_transactions (self w)) 1); [lia |].
      reflexivity.
    + unfold trace. rewrite run_run. cbn zeta. as_trace.
      rewrite reconnect_if_missing_connection_run. cbn. as_trace.
      rewrite reconnect_run. cbn.
      destruct (_reconnector _) as [[v | f] |];
        try (eexists; reflexivity).
      destruct (call env f _) as [[v | e] w1]; [| eexists; reflexivity].
      destruct (callback query bindings w1) as [[a | e] w2].
      * eexists; reflexivity.
      * destruct (_caused_by_lost_connection e); [| eexists; reflexivity].
        as_trace. rewrite reconnect_run.
        destruct (_reconnector _) as [[v' | f'] |];
          try (eexists; reflexivity).
        destruct (call env f' _) as [[v' | e'] w3]; [| eexists; reflexivity].
        destruct (callback query bindings w3) as [[a | e2] w4];
          eexists; reflexivity.
    + intros Hn. rewrite run_run. cbn zeta. as_trace.
      rewrite reconnect_if_missing_connection_run. cbn. as_trace.
      rewrite reconnect_run. cbn.
      unfold has_reconnector in Hn.
      destruct (_reconnector (self w)) as [[v | f] |];
        try discriminate Hn; reflexivity.
Qed.

(** ** A read across a lost connection *)

Lemma run_retry_returns {A : Type}
    (query : Query) (bindings : Bindings)
    (callback : @Callback Outside Callable A)
    (w w2 w3 w4 : World) (h : Handle) (f : Callable) (e : Exn) (r : Value)
    (a : A) :
  _connection (self w) = Some h ->
  callback query bindings w = (Raise e, w2) ->
  _caused_by_lost_connection e = true ->
  _reconnector (self w2) = Some (Function f) ->
  call env f w2 = (Return r, w3) ->
  callback query bindings w3 = (Return a, w4) ->
  _run env query bindings callback (w, [])
  = (Return a,
     (w4,
      [Invoked_callback query bindings; Called_reconnect;
       Invoked_callback query bindings;
       Called_log_query query bindings
         (elapsed_ms env (time_time env (outside w))
            (time_time env (outside w4)))])).
Proof.
  intros Hc H1 Hl Hf Hr H2. rewrite run_run. cbn zeta. as_trace.
  rewrite reconnect_if_missing_connection_run, Hc. cbn.
  rewrite H1, Hl. as_trace. rewrite reconnect_run, Hf, Hr, H2. reflexivity.
Qed.

(** X14.  When the first attempt of a [select] loses the connection at
    [execute()] and the reconnector returns, the second attempt asks the
    router again: it opens a new cursor on the handle the connection has
    after reconnecting, and its records are what [select] returns.  The
    logged time runs from before the first attempt. *)
Theorem select_retries_on_the_reconnected_handle
    (query : Query) (bindings : Bindings) (use_read_connection : bool)
    (w w3 : World) (hw h h' : Handle) (k k' : Cursor) (f : Callable)
    (e : Exn) (r v : Value) (rows : list Row) (o1 o2 o4 o5 o6 : Outside) :
  let routed (c : Connection) :=
    if use_read_connection then get_read_connection c else get_connection c in
  let lost := mkWorld (with_cursor (self w) (Some k)) o2 in
  _pretending (self w) = false ->
  _connection (self w) = Some hw ->
  routed (self w) = Some h ->
  dbapi_cursor env h (outside w) = (Return k, o1) ->
  cursor_execute env k query (prepare_bindings bindings) o1 = (Raise e, o2) ->
  _caused_by_lost_connection e = true ->
  _reconnector (self w) = Some (Function f) ->
  call env f lost = (Return r, w3) ->
  _pretending (self w3) = false ->
  routed (self w3) = Some h' ->
  dbapi_cursor env h' (outside w3) = (Return k', o4) ->
  cursor_execute env k' query (prepare_bindings bindings) o4 = (Return v, o5) ->
  cursor_fetchall env k' o5 = (Return rows, o6) ->
  select env query bindings use_read_connection (w, [])
  = (Return rows,
     (mkWorld (with_cursor (self w3) (Some k')) o6,
      [Invoked_callback query bindings; Called_reconnect;
       Invoked_callback query bindings;
       Called_log_query query bindings
         (elapsed_ms env (time_time env (outside w)) (time_time env o6))])).
Proof.
  cbn zeta. intros Hp Hc Hh Hk Hx Hl Hf Hr Hp3 Hh3 Hk3 Hx3 Hf3.
  unfold select.
  rewrite (run_retry_returns _ _ _ w
             (mkWorld (with_cursor (self w) (Some k)) o2) w3
             (mkWorld (with_cursor (self w3) (Some k')) o6)
             hw f e r rows Hc); try assumption; try reflexivity.
  - unfold _get_cursor_for_select, connection_cursor. st_unfold.
    rewrite Hp, Hh. st_unfold. rewrite Hk. cbn. rewrite Hx. reflexivity.
  - unfold _get_cursor_for_select, connection_cursor. st_unfold.
    rewrite Hp3, Hh3. st_unfold. rewrite Hk3. cbn. rewrite Hx3. cbn.
    rewrite Hf3. reflexivity.
Qed.

End Pipeline.

(** ** Instances of the further properties *)

Lemma nesting_fires_once_at_any_depth_witness :
  (times 3 begin_transaction ;; times 3 (commit good_env)) (fresh, [])
  = (Return tt,
     (fresh,
      [Called_commit; Called_commit; Called_commit; Driver_commit 1%nat])).
Proof.
  apply (proj1 (nesting_fires_once_at_any_depth good_env 2 fresh 1%nat
                  eq_refl eq_refl) tt 0).
  reflexivity.
Defined.

Lemma transaction_scope_closes_one_level_witness :
  _transactions (self (world_after (transaction good_env quiet_work) fresh))
  = _transactions (self fresh).
Proof.
  apply (proj2 (transaction_scope_closes_one_level good_env quiet_work fresh)).
  reflexivity.
Defined.

Lemma nested_scopes_fire_once_witness :
  transaction_around good_env (transaction_around good_env (lift quiet_work))
    (fresh, [])
  = (Return VNone,
     (fresh, [Called_commit; Called_commit; Driver_commit 1%nat])).
Proof.
  apply (proj1 (nested_scopes_fire_once good_env quiet_work fresh 1%nat
                  eq_refl eq_refl) VNone 0 tt 0);
    reflexivity.
Defined.

Lemma run_raises_wrapped_or_reconnect_error_witness :
  exists cause w2,
    failing_callback "select 1" BNone fresh = (Raise cause, w2) /\
    _caused_by_lost_connection cause = false /\
    QueryException "select 1" (BList []) syntax_error
    = QueryException "select 1" (prepare_bindings BNone) cause.
Proof.
  destruct (run_raises_wrapped_or_reconnect_error good_env "select 1" BNone
              failing_callback fresh
              (QueryException "select 1" (BList []) syntax_error) eq_refl)
    as [_ [[Hnone _] | [_ (cause & w2 & Hfirst & Hrest)]]].
  - discriminate Hnone.
  - exists cause, w2. split; [exact Hfirst |].
    injection Hfirst as <- <-. split; [reflexivity | exact Hrest].
Defined.

Lemma select_reads_from_the_routed_handle_witness :
  select (sample_env true true [row 10]) "select 1" BNone true
    (with_replica, [])
  = (Return [row 10],
     (mkWorld (with_cursor (self with_replica) (Some 2%nat)) 0,
      [Invoked_callback "select 1" BNone;
       Called_log_query "select 1" BNone 0])).
Proof.
  apply (select_reads_from_the_routed_handle (sample_env true true [row 10])
           "select 1" BNone true with_replica 1%nat 2%nat 2%nat VNone
           [row 10] 0 0 0);
    reflexivity.
Defined.

Lemma select_from_write_connection_reads_the_read_handle_witness :
  select_from_write_connection (replica_env [row 10]) "select 1" BNone
    (with_replica, [])
  = (Return [row 10],
     (mkWorld (with_cursor (self with_replica) (Some 2%nat)) 0,
      [Invoked_callback "select 1" (BDict []);
       Called_log_query "select 1" (BDict []) 0])).
Proof.
  apply (select_from_write_connection_reads_the_read_handle
           (replica_env [row 10]) "select 1" BNone with_replica
           1%nat 2%nat 2%nat VNone [row 10] 0 0 0);
    (reflexivity || (cbn; lia)).
Defined.

Lemma writes_use_the_write_handle_witness :
  update good_env sample_writes "delete from t" BNone (with_replica, [])
  = (Return (VInt 3),
     (with_replica,
      [Invoked_callback "delete from t" BNone;
       Called_log_query "delete from t" BNone 0])).
Proof.
  apply (proj1 (writes_use_the_write_handle good_env sample_writes
                  "delete from t" BNone with_replica 1%nat
                  eq_refl eq_refl) 1%nat VNone 0 0 eq_refl eq_refl).
Defined.

Lemma pretending_statements_reach_no_handle_witness :
  select good_env "select 1" BNone true (pretending_world, [])
  = (Return [],
     (pretending_world,
      [Invoked_callback "select 1" BNone;
       Called_log_query "select 1" BNone 0])).
Proof.
  apply (pretending_statements_reach_no_handle good_env sample_writes
           "select 1" BNone true pretending_world 1%nat eq_refl eq_refl).
Defined.

Lemma pretend_around_a_statement_changes_nothing_witness :
  pretend (Time := Z)
    (as_code (unprepared good_env sample_writes "drop table t")) (fresh, [])
  = (Return tt, (fresh, [])).
Proof.
  apply (pretend_around_a_statement_changes_nothing good_env sample_writes
           "drop table t" BNone true fresh 1%nat eq_refl).
Defined.

Lemma pretend_does_not_nest_witness :
  result
    (pretend (Time := Z)
       (as_code (pretend (Time := Z) quiet_work) ;; report_pretending))
    fresh
  = Return tt /\
  fst (report_pretending
         (mkWorld
            (with_logging_queries
               (with_pretending
                  (with_pretending
                     (with_logging_queries (self fresh) true) true)
                  false)
               true)
            0))
  = Return (VBool false).
Proof.
  split; [| reflexivity].
  apply (proj2 (pretend_does_not_nest (Time := Z) quiet_work report_pretending
                  fresh _ VNone eq_refl)).
Defined.

Lemma disconnect_then_run_reconnects_witness :
  _run good_env "select 1" BNone failing_callback
    (mkWorld (with_read_connection (with_connection (self fresh) None) None)
       0, [])
  = (Raise no_reconnector_available,
     (mkWorld (with_read_connection (with_connection (self fresh) None) None)
        0,
      [Called_reconnect])).
Proof.
  destruct (disconnect_then_run_reconnects good_env "select 1" BNone
              failing_callback fresh) as [_ H].
  destruct H as (_ & _ & H); [cbn; lia |].
  apply H. reflexivity.
Defined.

Lemma select_retries_on_the_reconnected_handle_witness :
  select (flaky_env [row 10]) "select 1" BNone true (reconnectable, [])
  = (Return [row 10],
     (mkWorld
        (with_cursor (with_connection (self reconnectable) (Some 5%nat))
           (Some 5%nat))
        1,
      [Invoked_callback "select 1" BNone; Called_reconnect;
       Invoked_callback "select 1" BNone;
       Called_log_query "select 1" BNone 1])).
Proof.
  apply (select_retries_on_the_reconnected_handle (flaky_env [row 10])
           "select 1" BNone true reconnectable
           (mkWorld
              (with_connection
                 (with_cursor (self reconnectable) (Some 1%nat)) (Some 5%nat))
              1)
           1%nat 1%nat 5%nat 1%nat 5%nat 5%nat gone_away VNone VNone
           [row 10] 0 0 1 1 1);
    reflexivity.
Defined.
